(** * Tile Detection and Recommendation: the workflow and its mock services

    A shallow embedding of the JavaScript sources

      - [services/detectService.js], [services/recommendService.js]
      - [components/ImageUploader.jsx]
      - [App.jsx], [pages/UploadPage.jsx], [pages/ResultPage.jsx],
        [pages/RecommendationPage.jsx]

    JavaScript numbers are idealised as exact rationals ([Q]); the one
    transcendental operation of the sources, [Math.pow] with a fractional
    exponent, is the real power function and [toFixed(3)] brings its result
    back to a rational with three decimals.  [Math.random] reads the next
    element of an explicit source of draws that is threaded through the
    services as state. *)

From Stdlib Require Import String List Bool Arith ZArith QArith Qround Reals Qreals.
From Stdlib Require Import Psatz Permutation Sorted.
Import ListNotations.

Local Open Scope Q_scope.

(* ------------------------------------------------------------------ *)
(** ** The fragments of the JavaScript library the sources use *)

Module Js.

(** [Math.floor] on a number. *)
Definition Math_floor (x : Q) : Z := Qfloor x.

(** [Math.pow(x, y)] for [0 <= x] and [0 < y], the only use the sources
    make of it: [0 ** y = 0], otherwise [exp (y * ln x)]. *)
Definition Math_pow (x y : Q) : R :=
  if Qeq_bool x 0 then 0%R else Rpower (Q2R x) (Q2R y).

(** [Number(x.toFixed(3))]: the integer [n] with [n / 1000] closest to
    [x], the larger one on a tie, over a thousand. *)
Definition toFixed3 (x : R) : Q :=
  inject_Z (Int_part (x * 1000 + / 2)) / 1000.

(** [l.slice(0, n)]: a negative [n] counts from the end of the array. *)
Definition slice0 {A : Type} (n : Z) (l : list A) : list A :=
  if (n <? 0)%Z
  then firstn (length l - Z.to_nat (- n)) l
  else firstn (Z.to_nat n) l.

Section Sort.
Context {A : Type}.
(** The comparator: negative when its first argument goes first,
    positive when its second argument goes first. *)
Variable cmp : A -> A -> Q.

(** [Array.prototype.sort] is stable.  [insert x l] places [x], which
    came before every element of [l] in the array, in the sorted [l]:
    it moves right only past elements that must go first. *)
Fixpoint insert (x : A) (l : list A) : list A :=
  match l with
  | [] => [x]
  | y :: l' => if Qle_bool (cmp x y) 0 then x :: l else y :: insert x l'
  end.

Definition sort (l : list A) : list A := fold_right insert [] l.
End Sort.

End Js.

(* ------------------------------------------------------------------ *)
(** ** The random source *)

Module Random.

(** The draws [Math.random] will return, in order. *)
Definition Source := nat -> Q.

(** A computation that consumes draws. *)
Definition Rand (A : Type) : Type := Source -> A * Source.

Definition ret {A : Type} (a : A) : Rand A := fun s => (a, s).

Definition bind {A B : Type} (m : Rand A) (k : A -> Rand B) : Rand B :=
  fun s => let (a, s') := m s in k a s'.

Definition Math_random : Rand Q :=
  fun s => (s 0%nat, fun n => s (S n)).

(** [l.map(f)] where [f] draws: the callback runs in index order. *)
Fixpoint mapM {A B : Type} (f : A -> Rand B) (l : list A) : Rand (list B) :=
  match l with
  | [] => ret []
  | x :: l' => bind (f x) (fun y => bind (mapM f l') (fun ys => ret (y :: ys)))
  end.

(** [Math.random] returns a number in [0, 1). *)
Definition in_unit (s : Source) : Prop := forall n, 0 <= s n /\ s n < 1.

(** The source that returns the same number forever. *)
Definition constant (q : Q) : Source := fun _ => q.

(** The source that returns the numbers of [l], then [q] forever. *)
Definition from_list (l : list Q) (q : Q) : Source := fun n => nth n l q.

End Random.

Declare Scope rand_scope.
Delimit Scope rand_scope with rand.
Notation "x <- m ;; k" := (Random.bind m (fun x => k))
  (at level 61, m at next level, right associativity) : rand_scope.

Local Open Scope rand_scope.

(* ------------------------------------------------------------------ *)
(** ** Data shared by the services and the pages *)

Module Api.

(** An entry of a mock catalog: [{ id, image }]. *)
Record Tile := { tile_id : Z; tile_image : string }.

(** A detection [{ id, image, confidence }]; it is also the reference tile
  handed to the recommendation service.  [id] is [None] on an object
  that has no [id] property. *)
Record Detection := { id : option Z; image : string; confidence : Q }.

(** The response of the detection service, [{ detections }]. *)
Record DetectionResults := { detections : list Detection }.

(** A recommendation [{ id, image, similarity }]. *)
Record Recommendation := { rec_id : Z; rec_image : string; similarity : Q }.

(** The response of the recommendation service, [{ recommendations }]. *)
Record RecommendationResults := { recommendations : list Recommendation }.

(** A [File]: what the pages read of it. *)
Record File := { name : string; type : string; size : Z }.

(** How the promise a service returns settles: resolved with a value after
  the simulated delay (in milliseconds), or rejected with an error. *)
Inductive Outcome (A : Type) : Type :=
| Resolved (delay : Z) (value : A)
| Rejected (message : string).
Arguments Resolved {A} delay value.
Arguments Rejected {A} message.

End Api.
Import Api.

(* ------------------------------------------------------------------ *)
(** ** services/detectService.js *)

Module DetectService.
Import Js Random.

Definition MOCK_TILES : list Tile :=
  [ {| tile_id := 1; tile_image := "/mock/tile1.svg" |};
    {| tile_id := 2; tile_image := "/mock/tile2.svg" |};
    {| tile_id := 3; tile_image := "/mock/tile3.svg" |} ].

Definition MIN_DELAY : Z := 1500.
Definition MAX_DELAY : Z := 2000.
Definition EMPTY_DETECTION_PROBABILITY : Q := 0.25.

Definition getRandomDelay : Rand Z :=
  r <- Math_random ;;
  ret (Math_floor (r * inject_Z (MAX_DELAY - MIN_DELAY + 1)) + MIN_DELAY)%Z.

Definition generateConfidence : Rand Q :=
  let base := 0.5 in
  let range := 0.49 in
  random <- Math_random ;;
  let weighted := Math_pow random 0.7 in
  ret (toFixed3 (Q2R base + weighted * Q2R range)).

Definition generateMockDetections : Rand DetectionResults :=
  r <- Math_random ;;
  if negb (Qle_bool EMPTY_DETECTION_PROBABILITY r)
  then ret {| detections := [] |}
  else
    r' <- Math_random ;;
    let numDetections := (Math_floor (r' * 3) + 3)%Z in
    ds <- mapM (fun tile =>
                  c <- generateConfidence ;;
                  ret {| id := Some (tile_id tile);
                         image := tile_image tile;
                         confidence := c |})
               (slice0 numDetections MOCK_TILES) ;;
    ret {| detections := sort (fun a b => confidence b - confidence a) ds |}.

(** The delay is drawn when the promise is created, the results when the
    timer fires; [generateMockDetections] does not throw, so the promise
    always resolves. *)
Definition detectTile (imageFile : File) : Rand (Outcome DetectionResults) :=
  delay <- getRandomDelay ;;
  results <- generateMockDetections ;;
  ret (Resolved delay results).

End DetectService.

(* ------------------------------------------------------------------ *)
(** ** services/recommendService.js *)

Module RecommendService.
Import Js Random.

Definition MOCK_RECOMMENDATION_TILES : list Tile :=
  [ {| tile_id := 101; tile_image := "/mock/tile1.svg" |};
    {| tile_id := 102; tile_image := "/mock/tile2.svg" |};
    {| tile_id := 103; tile_image := "/mock/tile3.svg" |};
    {| tile_id := 104; tile_image := "/mock/tile1.svg" |};
    {| tile_id := 105; tile_image := "/mock/tile2.svg" |};
    {| tile_id := 106; tile_image := "/mock/tile3.svg" |};
    {| tile_id := 107; tile_image := "/mock/tile1.svg" |};
    {| tile_id := 108; tile_image := "/mock/tile2.svg" |} ].

Definition MIN_DELAY : Z := 1500.
Definition MAX_DELAY : Z := 2000.
Definition EMPTY_RECOMMENDATION_PROBABILITY : Q := 0.1.

Definition getRandomDelay : Rand Z :=
  r <- Math_random ;;
  ret (Math_floor (r * inject_Z (MAX_DELAY - MIN_DELAY + 1)) + MIN_DELAY)%Z.

Definition generateSimilarity : Rand Q :=
  let minSimilarity := 0.72 in
  let maxSimilarity := 0.95 in
  let range := maxSimilarity - minSimilarity in
  random <- Math_random ;;
  let weighted := Math_pow random 0.6 in
  ret (toFixed3 (Q2R minSimilarity + weighted * Q2R range)).

(** [referenceTile?.id] *)
Definition optional_id (referenceTile : option Detection) : option Z :=
  match referenceTile with
  | Some t => id t
  | None => None
  end.

(** [n !== v] for a number [n] and a value [v] that is a number or
    [undefined]. *)
Definition strict_neq (n : Z) (v : option Z) : bool :=
  match v with
  | Some m => negb (n =? m)%Z
  | None => true
  end.

(** A value used as a condition: a number is truthy unless it is zero,
    [undefined] is not. *)
Definition truthy (v : option Z) : bool :=
  match v with
  | Some n => negb (n =? 0)%Z
  | None => false
  end.

(** [Array.prototype.sort] under the comparator [() => Math.random() - 0.5],
    as a stable insertion sort that asks the comparator once per step. *)
Fixpoint insert_random {A : Type} (x : A) (l : list A) : Rand (list A) :=
  match l with
  | [] => ret [x]
  | y :: l' =>
      r <- Math_random ;;
      if Qle_bool (r - 0.5) 0 then ret (x :: l)
      else (rest <- insert_random x l' ;; ret (y :: rest))
  end.

Fixpoint sort_random {A : Type} (l : list A) : Rand (list A) :=
  match l with
  | [] => ret []
  | x :: l' => sorted <- sort_random l' ;; insert_random x sorted
  end.

(** The catalog without the tile whose id is that of the reference tile:
    [availableTiles] in [generateMockRecommendations]. *)
Definition availableTiles (referenceTile : option Detection) : list Tile :=
  filter (fun tile => strict_neq (tile_id tile) (optional_id referenceTile))
         MOCK_RECOMMENDATION_TILES.

Section Engine.
(** The order [sort] leaves an array in under a comparator that is not
    consistent is up to the engine: [shuffle l] stands for
    [[...l].sort(() => Math.random() - 0.5)]. *)
Variable shuffle : list Tile -> Rand (list Tile).

Definition generateMockRecommendations (referenceTile : option Detection)
  : Rand RecommendationResults :=
  r <- Math_random ;;
  if negb (Qle_bool EMPTY_RECOMMENDATION_PROBABILITY r)
  then ret {| recommendations := [] |}
  else
    r' <- Math_random ;;
    let numRecommendations := (Math_floor (r' * 4) + 5)%Z in
    shuffled <- shuffle (availableTiles referenceTile) ;;
    let selected := slice0 numRecommendations shuffled in
    recs <- mapM (fun tile =>
                    s <- generateSimilarity ;;
                    ret {| rec_id := tile_id tile;
                           rec_image := tile_image tile;
                           similarity := s |})
                 selected ;;
    ret {| recommendations := sort (fun a b => similarity b - similarity a) recs |}.

(** An [async] function: the [throw] of the input check rejects the
    promise it returns.  [generateMockRecommendations] does not throw,
    so past the check the promise resolves. *)
Definition getTileRecommendations (referenceTile : option Detection)
  : Rand (Outcome RecommendationResults) :=
  if negb (match referenceTile with Some _ => true | None => false end)
     || negb (truthy (optional_id referenceTile))
  then ret (Rejected "Invalid reference tile provided")
  else
    delay <- getRandomDelay ;;
    results <- generateMockRecommendations referenceTile ;;
    ret (Resolved delay results).
End Engine.

End RecommendService.

(* ------------------------------------------------------------------ *)
(** ** components/ImageUploader.jsx *)

Module ImageUploader.

Definition ALLOWED_TYPES : list string :=
  [ "image/png"; "image/jpeg"; "image/jpg" ]%string.

Definition MAX_FILE_SIZE : Z := 10 * 1024 * 1024.

(** [validateFile]: the error message, or [None] ([null]) when the file
    is valid.  [file] is [None] when no file was given. *)
Definition validateFile (file : option File) : option string :=
  match file with
  | None => Some "No file selected"%string
  | Some f =>
      if negb (existsb (String.eqb (type f)) ALLOWED_TYPES)
      then Some "Invalid file type. Please upload PNG, JPG, or JPEG images only."%string
      else if (size f >? MAX_FILE_SIZE)%Z
      then Some "File too large. Maximum size is 10MB."%string
      else None
  end.

(** [handleFile]: the new value of the component's [error] and the
    argument [onImageSelect] is called with, if it is called. *)
Definition handleFile (file : option File) : option string * option File :=
  match validateFile file with
  | Some validationError => (Some validationError, None)
  | None => (None, file)
  end.

End ImageUploader.

(* ------------------------------------------------------------------ *)
(** ** Object URLs *)

Module Browser.

Definition Url := nat.

(** The object URLs of the document that have been created and not
    revoked, and the next one [createObjectURL] will hand out. *)
Record UrlStore := { live : list Url; next : Url }.

Definition no_urls : UrlStore := {| live := []; next := 0%nat |}.

Definition createObjectURL (urls : UrlStore) : Url * UrlStore :=
  (next urls, {| live := next urls :: live urls; next := S (next urls) |}).

Definition revokeObjectURL (u : Url) (urls : UrlStore) : UrlStore :=
  {| live := remove Nat.eq_dec u (live urls); next := next urls |}.

End Browser.

(* ------------------------------------------------------------------ *)
(** ** App.jsx: the workflow state and its transition operations *)

Module App.
Import Browser.

Inductive Page := upload | result | recommendation.

Record State := {
  currentPage : Page;
  uploadedImage : option File;
  imagePreview : option Url;
  detectionResults : option DetectionResults;
  selectedTileForRecommendation : option Detection
}.

(** The five [useState] initial values. *)
Definition initial : State :=
  {| currentPage := upload;
     uploadedImage := None;
     imagePreview := None;
     detectionResults := None;
     selectedTileForRecommendation := None |}.

Definition handleImageUpload (file : File) (s : State) (urls : UrlStore)
  : State * UrlStore :=
  let (previewUrl, urls') := createObjectURL urls in
  ({| currentPage := currentPage s;
      uploadedImage := Some file;
      imagePreview := Some previewUrl;
      detectionResults := detectionResults s;
      selectedTileForRecommendation := selectedTileForRecommendation s |},
   urls').

Definition handleDetectionComplete (results : DetectionResults) (s : State)
  : State :=
  {| currentPage := result;
     uploadedImage := uploadedImage s;
     imagePreview := imagePreview s;
     detectionResults := Some results;
     selectedTileForRecommendation := selectedTileForRecommendation s |}.

Definition handleReset (s : State) (urls : UrlStore) : State * UrlStore :=
  let urls' :=
    match imagePreview s with
    | Some u => revokeObjectURL u urls
    | None => urls
    end in
  ({| currentPage := upload;
      uploadedImage := None;
      imagePreview := None;
      detectionResults := None;
      selectedTileForRecommendation := None |},
   urls').

Definition handleFindSimilar (tile : option Detection) (s : State) : State :=
  {| currentPage := recommendation;
     uploadedImage := uploadedImage s;
     imagePreview := imagePreview s;
     detectionResults := detectionResults s;
     selectedTileForRecommendation := tile |}.

Definition handleBackToResults (s : State) : State :=
  {| currentPage := result;
     uploadedImage := uploadedImage s;
     imagePreview := imagePreview s;
     detectionResults := detectionResults s;
     selectedTileForRecommendation := None |}.

End App.

(* ------------------------------------------------------------------ *)
(** ** pages/ResultPage.jsx *)

Module ResultPage.
Import Js.

(** The props of a [TileCard]. *)
Record TileCard := { card_image : string; card_confidence : Q; rank : nat }.

(** What the page shows of the detections: the summary line
    "Found n matching tiles" and the cards when there are detections,
    the "No Tile Detected" guidance otherwise; and its buttons. *)
Record View := {
  results_summary : option nat;
  tile_cards : list TileCard;
  no_detections : bool;
  find_similar_button : bool;
  reset_button : bool
}.

(** [detectionResults?.detections?.length > 0] *)
Definition hasDetections (detectionResults : option DetectionResults) : bool :=
  match detectionResults with
  | Some r => (0 <? List.length (detections r))%nat
  | None => false
  end.

Definition topDetections (detectionResults : option DetectionResults)
  : list Detection :=
  match detectionResults with
  | Some r =>
      if hasDetections detectionResults
      then slice0 3 (sort (fun a b => confidence b - confidence a) (detections r))
      else []
  | None => []
  end.

(** [handleFindSimilar]: the tile [onFindSimilar] is called with, if it
    is called. *)
Definition handleFindSimilar (detectionResults : option DetectionResults)
  : option Detection :=
  match topDetections detectionResults with
  | d :: _ => Some d
  | [] => None
  end.

(** [l.map((detection, index) => ...)] from index [i] on. *)
Fixpoint cards_from (i : nat) (l : list Detection) : list TileCard :=
  match l with
  | [] => []
  | d :: l' =>
      {| card_image := image d; card_confidence := confidence d; rank := i + 1 |}
      :: cards_from (S i) l'
  end.

Definition render (detectionResults : option DetectionResults) : View :=
  let top := topDetections detectionResults in
  if hasDetections detectionResults
  then {| results_summary := Some (List.length top);
          tile_cards := cards_from 0 top;
          no_detections := false;
          find_similar_button := true;
          reset_button := true |}
  else {| results_summary := None;
          tile_cards := [];
          no_detections := true;
          find_similar_button := false;
          reset_button := true |}.

End ResultPage.

(* ------------------------------------------------------------------ *)
(** ** pages/UploadPage.jsx *)

Module UploadPage.

(** The three [useState] cells of the page. *)
Record State := {
  isProcessing : bool;
  error : option string;
  showCamera : bool
}.

Definition initial : State :=
  {| isProcessing := false; error := None; showCamera := false |}.

(** What the page renders: only the loader while processing, only the
    camera while it is open, the upload form otherwise. *)
Inductive View :=
| processing
| camera
| form (page_error : option string) (detect_disabled : bool).

Definition render (uploadedImage : option File) (st : State) : View :=
  if isProcessing st then processing
  else if showCamera st then camera
  else form (error st)
            (match uploadedImage with Some _ => false | None => true end).

(** [handleDetect] up to its [await]: the new state of the page and the
    file [detectTile] is called with, if it is called. *)
Definition handleDetect (uploadedImage : option File) (st : State)
  : State * option File :=
  match uploadedImage with
  | None =>
      ({| isProcessing := isProcessing st;
          error := Some "Please select an image before detecting tiles."%string;
          showCamera := showCamera st |}, None)
  | Some f =>
      ({| isProcessing := true; error := None; showCamera := showCamera st |},
       Some f)
  end.

(** [handleDetect] from its [await] on, when the promise resolved:
    [onDetectionComplete(results)] is called (by the caller of this
    function) and the [finally] block runs. *)
Definition detect_resolved (st : State) : State :=
  {| isProcessing := false; error := error st; showCamera := showCamera st |}.

(** ... and when the promise rejected: the [catch] and [finally] blocks. *)
Definition detect_rejected (st : State) : State :=
  {| isProcessing := false;
     error := Some "An error occurred while processing the image. Please try again."%string;
     showCamera := showCamera st |}.

Definition handleCameraCapture (st : State) : State :=
  {| isProcessing := isProcessing st; error := error st; showCamera := false |}.

Definition handleCameraClose (st : State) : State :=
  {| isProcessing := isProcessing st; error := error st; showCamera := false |}.

Definition openCamera (st : State) : State :=
  {| isProcessing := isProcessing st; error := error st; showCamera := true |}.

End UploadPage.

(* ------------------------------------------------------------------ *)
(** ** pages/RecommendationPage.jsx *)

Module RecommendationPage.

(** The three [useState] cells and the [useRef] latch of the page. *)
Record State := {
  isLoading : bool;
  recommendations : option (list Recommendation);
  error : option string;
  hasFetchedRef : bool
}.

Definition initial : State :=
  {| isLoading := false; recommendations := None; error := None;
     hasFetchedRef := false |}.

(** A string used as a condition. *)
Definition truthy (e : option string) : bool :=
  match e with
  | Some s => negb (String.eqb s EmptyString)
  | None => false
  end.

(** The effect of the page, which runs when it is mounted: the new state
    and the tile [getTileRecommendations] is called with, if it is
    called. *)
Definition effect (referenceTile : option Detection) (st : State)
  : State * option Detection :=
  match referenceTile with
  | None =>
      ({| isLoading := isLoading st;
          recommendations := recommendations st;
          error := Some "No reference tile provided. Please go back and select a tile."%string;
          hasFetchedRef := hasFetchedRef st |}, None)
  | Some t =>
      if hasFetchedRef st then (st, None)
      else
        ({| isLoading := true;
            recommendations := recommendations st;
            error := None;
            hasFetchedRef := true |}, Some t)
  end.

(** [fetchRecommendations] from its [await] on, when the promise
    resolved ... *)
Definition fetch_resolved (results : RecommendationResults) (st : State)
  : State :=
  {| isLoading := false;
     recommendations := Some (Api.recommendations results);
     error := error st;
     hasFetchedRef := hasFetchedRef st |}.

(** ... and when it rejected. *)
Definition fetch_rejected (st : State) : State :=
  {| isLoading := false;
     recommendations := recommendations st;
     error := Some "Unable to find similar tiles. Please try again."%string;
     hasFetchedRef := hasFetchedRef st |}.

(** The "Similar Tiles" section. *)
Inductive Body :=
| recommendation_error (message : string)
| found (count : nat) (cards : list Recommendation)
| no_recommendations.

(** What the page renders. *)
Inductive View :=
| no_tile_selected
| loading
| similar_tiles (reference : Detection) (body : Body).

(** The list of recommendations, or the "No Similar Tiles Found" notice
    when there is none. *)
Definition listing (recommendations : option (list Recommendation)) : Body :=
  match recommendations with
  | Some (r :: l) => found (List.length (r :: l)) (r :: l)
  | _ => no_recommendations
  end.

Definition render (referenceTile : option Detection) (st : State) : View :=
  match referenceTile with
  | None => no_tile_selected
  | Some t =>
      if isLoading st then loading
      else
        similar_tiles t
          (match error st with
           | Some message =>
               if truthy (error st) then recommendation_error message
               else listing (recommendations st)
           | None => listing (recommendations st)
           end)
  end.

(** The buttons a view offers. *)
Definition back_button (v : View) : bool :=
  match v with
  | no_tile_selected => true
  | loading => false
  | similar_tiles _ _ => true
  end.

Definition reset_button (v : View) : bool :=
  match v with
  | similar_tiles _ _ => true
  | _ => false
  end.

Definition retry_button (v : View) : bool :=
  match v with
  | similar_tiles _ (recommendation_error _) => true
  | _ => false
  end.

End RecommendationPage.

(* ------------------------------------------------------------------ *)
(** ** The pages put together: what a user and the services can do *)

Module Workflow.
Import Browser.

(** A call to a service. *)
Inductive Call :=
| detect_call (imageFile : File)
| recommend_call (referenceTile : Detection).

(** The state of [App], the object URLs of the document, the state of the
    page that is mounted ([uploadPage] is meaningful on the upload page,
    [recommendationPage] on the recommendation page; a page starts from its
    initial state when it is mounted), the calls whose promise has not
    settled, and the log of every call made, oldest first. *)
Record World := {
  app : App.State;
  urls : UrlStore;
  uploadPage : UploadPage.State;
  recommendationPage : RecommendationPage.State;
  in_flight : list Call;
  issued : list Call
}.

Definition initial : World :=
  {| app := App.initial;
     urls := no_urls;
     uploadPage := UploadPage.initial;
     recommendationPage := RecommendationPage.initial;
     in_flight := [];
     issued := [] |}.

(** What happens: the user acts on what the mounted page renders, or the
    promise of a call in flight settles. *)
Inductive Event :=
| select_file (file : option File)
| click_use_camera
| camera_capture (file : File)
| camera_close
| click_detect
| detect_settles (o : Outcome DetectionResults)
| click_find_similar
| click_back
| click_reset
| recommend_settles (o : Outcome RecommendationResults)
| click_try_again.

Definition is_detect (c : Call) : bool :=
  match c with detect_call _ => true | recommend_call _ => false end.

Definition is_recommend (c : Call) : bool :=
  match c with detect_call _ => false | recommend_call _ => true end.

(** Removes the oldest call of a kind from the calls in flight. *)
Fixpoint settle (kind : Call -> bool) (l : list Call) : option (list Call) :=
  match l with
  | [] => None
  | c :: l' =>
      if kind c then Some l'
      else match settle kind l' with
           | Some r => Some (c :: r)
           | None => None
           end
  end.

Definition call_list {A : Type} (mk : A -> Call) (o : option A) : list Call :=
  match o with
  | Some a => [mk a]
  | None => []
  end.

(** [window.location.reload()]: the document is replaced; its object URLs
    and timers go with it and [App] starts again. *)
Definition reload (w : World) : World :=
  {| app := App.initial;
     urls := {| live := []; next := next (urls w) |};
     uploadPage := UploadPage.initial;
     recommendationPage := RecommendationPage.initial;
     in_flight := [];
     issued := issued w |}.

Definition upload_view (w : World) : UploadPage.View :=
  UploadPage.render (App.uploadedImage (app w)) (uploadPage w).

Definition recommendation_view (w : World) : RecommendationPage.View :=
  RecommendationPage.render (App.selectedTileForRecommendation (app w))
                            (recommendationPage w).

Definition image_upload (file : File) (st : UploadPage.State) (w : World) : World :=
  let (a, u) := App.handleImageUpload file (app w) (urls w) in
  {| app := a; urls := u; uploadPage := st;
     recommendationPage := recommendationPage w;
     in_flight := in_flight w; issued := issued w |}.

Definition with_uploadPage (st : UploadPage.State) (w : World) : World :=
  {| app := app w; urls := urls w; uploadPage := st;
     recommendationPage := recommendationPage w;
     in_flight := in_flight w; issued := issued w |}.

(** One event; [None] when the page that is mounted does not offer the
    action, or no such call is in flight. *)
Definition step (w : World) (e : Event) : option World :=
  match App.currentPage (app w), e with
  | App.upload, select_file file =>
      match upload_view w with
      | UploadPage.form _ _ =>
          match snd (ImageUploader.handleFile file) with
          | Some f => Some (image_upload f (uploadPage w) w)
          | None => Some w
          end
      | _ => None
      end
  | App.upload, click_use_camera =>
      match upload_view w with
      | UploadPage.form _ _ =>
          Some (with_uploadPage (UploadPage.openCamera (uploadPage w)) w)
      | _ => None
      end
  | App.upload, camera_capture file =>
      match upload_view w with
      | UploadPage.camera =>
          Some (image_upload file (UploadPage.handleCameraCapture (uploadPage w)) w)
      | _ => None
      end
  | App.upload, camera_close =>
      match upload_view w with
      | UploadPage.camera =>
          Some (with_uploadPage (UploadPage.handleCameraClose (uploadPage w)) w)
      | _ => None
      end
  | App.upload, click_detect =>
      match upload_view w with
      | UploadPage.form _ false =>
          let (st, call) :=
            UploadPage.handleDetect (App.uploadedImage (app w)) (uploadPage w) in
          Some {| app := app w; urls := urls w; uploadPage := st;
                  recommendationPage := recommendationPage w;
                  in_flight := in_flight w ++ call_list detect_call call;
                  issued := issued w ++ call_list detect_call call |}
      | _ => None
      end
  | _, detect_settles o =>
      match settle is_detect (in_flight w) with
      | Some rest =>
          match o with
          | Resolved _ results =>
              Some {| app := App.handleDetectionComplete results (app w);
                      urls := urls w;
                      uploadPage := UploadPage.detect_resolved (uploadPage w);
                      recommendationPage := recommendationPage w;
                      in_flight := rest; issued := issued w |}
          | Rejected _ =>
              Some {| app := app w; urls := urls w;
                      uploadPage := UploadPage.detect_rejected (uploadPage w);
                      recommendationPage := recommendationPage w;
                      in_flight := rest; issued := issued w |}
          end
      | None => None
      end
  | App.result, click_find_similar =>
      if ResultPage.find_similar_button
           (ResultPage.render (App.detectionResults (app w)))
      then
        match ResultPage.handleFindSimilar (App.detectionResults (app w)) with
        | Some d =>
            let a := App.handleFindSimilar (Some d) (app w) in
            let (st, call) :=
              RecommendationPage.effect (App.selectedTileForRecommendation a)
                                        RecommendationPage.initial in
            Some {| app := a; urls := urls w; uploadPage := uploadPage w;
                    recommendationPage := st;
                    in_flight := in_flight w ++ call_list recommend_call call;
                    issued := issued w ++ call_list recommend_call call |}
        | None => Some w
        end
      else None
  | App.result, click_reset =>
      let (a, u) := App.handleReset (app w) (urls w) in
      Some {| app := a; urls := u; uploadPage := UploadPage.initial;
              recommendationPage := recommendationPage w;
              in_flight := in_flight w; issued := issued w |}
  | App.recommendation, click_reset =>
      if RecommendationPage.reset_button (recommendation_view w)
      then
        let (a, u) := App.handleReset (app w) (urls w) in
        Some {| app := a; urls := u; uploadPage := UploadPage.initial;
                recommendationPage := recommendationPage w;
                in_flight := in_flight w; issued := issued w |}
      else None
  | App.recommendation, click_back =>
      if RecommendationPage.back_button (recommendation_view w)
      then Some {| app := App.handleBackToResults (app w); urls := urls w;
                   uploadPage := uploadPage w;
                   recommendationPage := recommendationPage w;
                   in_flight := in_flight w; issued := issued w |}
      else None
  | _, recommend_settles o =>
      match settle is_recommend (in_flight w) with
      | Some rest =>
          Some {| app := app w; urls := urls w; uploadPage := uploadPage w;
                  recommendationPage :=
                    match o with
                    | Resolved _ results =>
                        RecommendationPage.fetch_resolved results (recommendationPage w)
                    | Rejected _ =>
                        RecommendationPage.fetch_rejected (recommendationPage w)
                    end;
                  in_flight := rest; issued := issued w |}
      | None => None
      end
  | App.recommendation, click_try_again =>
      if RecommendationPage.retry_button (recommendation_view w)
      then Some (reload w)
      else None
  | _, _ => None
  end.

(** A sequence of events, from the left. *)
Fixpoint run (w : World) (es : list Event) : option World :=
  match es with
  | [] => Some w
  | e :: es' =>
      match step w e with
      | Some w' => run w' es'
      | None => None
      end
  end.

(** The states the application can be in. *)
Inductive reachable : World -> Prop :=
| reachable_initial : reachable initial
| reachable_step (w w' : World) (e : Event) :
    reachable w -> step w e = Some w' -> reachable w'.

End Workflow.

(* ================================================================== *)
(** * Properties *)

(** ** Sorting *)

Module SortFacts.
Import Js.

(** A list in non-increasing order of a key. *)
Definition descending {A : Type} (key : A -> Q) (l : list A) : Prop :=
  StronglySorted (fun a b => key b <= key a) l.

(** The comparator [(a, b) => b.key - a.key]. *)
Definition by_key_desc {A : Type} (key : A -> Q) : A -> A -> Q :=
  fun a b => key b - key a.

Section Any.
Context {A : Type}.
Variable cmp : A -> A -> Q.

Lemma insert_perm (x : A) (l : list A) : Permutation (insert cmp x l) (x :: l).
Proof.
  induction l as [|y l IH]; simpl.
  - apply Permutation_refl.
  - destruct (Qle_bool (cmp x y) 0).
    + apply Permutation_refl.
    + rewrite perm_swap. now apply perm_skip.
Qed.

Lemma sort_perm (l : list A) : Permutation (sort cmp l) l.
Proof.
  induction l as [|x l IH]; simpl.
  - constructor.
  - rewrite insert_perm. now apply perm_skip.
Qed.

Lemma sort_length (l : list A) : List.length (sort cmp l) = List.length l.
Proof. apply Permutation_length, sort_perm. Qed.

Lemma sort_Forall (P : A -> Prop) (l : list A) :
  Forall P l -> Forall P (sort cmp l).
Proof.
  intro H. eapply Permutation_Forall; [|exact H].
  apply Permutation_sym, sort_perm.
Qed.

End Any.

Section ByKey.
Context {A : Type}.
Variable key : A -> Q.

Lemma insert_descending (x : A) (l : list A) :
  descending key l -> descending key (insert (by_key_desc key) x l).
Proof.
  unfold descending, by_key_desc.
  induction l as [|y l IH]; intro H; simpl.
  - constructor; constructor.
  - inversion H as [|? ? Hl Hy]; subst.
    destruct (Qle_bool (key y - key x) 0) eqn:E.
    + apply Qle_bool_iff in E.
      constructor; [exact H|].
      constructor; [lra|].
      eapply Forall_impl; [|exact Hy].
      simpl; intros z Hz; lra.
    + assert (Hlt : key x < key y).
      { destruct (Qlt_le_dec (key x) (key y)) as [?|Hle]; [assumption|].
        assert (Qle_bool (key y - key x) 0 = true) by (apply Qle_bool_iff; lra).
        congruence. }
      constructor; [now apply IH|].
      eapply Permutation_Forall.
      * apply Permutation_sym, insert_perm.
      * constructor; [lra|exact Hy].
Qed.

Lemma sort_descending (l : list A) : descending key (sort (by_key_desc key) l).
Proof.
  induction l as [|x l IH]; simpl.
  - constructor.
  - now apply insert_descending.
Qed.

(** [d] is the element of [l] with the highest key, the earliest one in
    [l] among those that share it. *)
Definition first_highest (d : A) (l : list A) : Prop :=
  exists before after,
    l = before ++ d :: after /\
    Forall (fun a => key a < key d) before /\
    Forall (fun a => key a <= key d) after.

Lemma sort_head_first_highest (l : list A) (d : A) (rest : list A) :
  sort (by_key_desc key) l = d :: rest -> first_highest d l.
Proof.
  revert d rest.
  induction l as [|x l IH]; intros d rest H; simpl in H; [discriminate|].
  destruct (sort (by_key_desc key) l) as [|y sorted] eqn:Es.
  - simpl in H. injection H as <- _.
    assert (l = []) as ->.
    { apply Permutation_nil. rewrite <- Es. apply sort_perm. }
    exists [], []. repeat split; constructor.
  - specialize (IH y sorted eq_refl).
    destruct IH as (before & after & -> & Hb & Ha).
    simpl in H. unfold by_key_desc at 1 in H.
    destruct (Qle_bool (key y - key x) 0) eqn:E.
    + apply Qle_bool_iff in E. injection H as <- _.
      exists [], (before ++ y :: after). repeat split; [constructor|].
      apply Forall_app; split.
      * eapply Forall_impl; [|exact Hb]. simpl; intros; lra.
      * constructor; [lra|].
        eapply Forall_impl; [|exact Ha]. simpl; intros; lra.
    + assert (Hlt : key x < key y).
      { destruct (Qlt_le_dec (key x) (key y)) as [?|Hle]; [assumption|].
        assert (Qle_bool (key y - key x) 0 = true) by (apply Qle_bool_iff; lra).
        congruence. }
      injection H as <- _.
      exists (x :: before), after. repeat split; [|assumption].
      constructor; assumption.
Qed.

End ByKey.

Lemma slice0_firstn {A : Type} (n : nat) (l : list A) :
  slice0 (Z.of_nat n) l = firstn n l.
Proof.
  unfold slice0.
  destruct (Z.ltb_spec (Z.of_nat n) 0); [lia|].
  now rewrite Nat2Z.id.
Qed.

Lemma slice0_all {A : Type} (n : Z) (l : list A) :
  (Z.of_nat (List.length l) <= n)%Z -> slice0 n l = l.
Proof.
  intro H. unfold slice0.
  destruct (Z.ltb_spec n 0); [lia|].
  apply firstn_all2. lia.
Qed.

Lemma slice0_length {A : Type} (n : Z) (l : list A) :
  (0 <= n)%Z -> List.length (slice0 n l) = Nat.min (Z.to_nat n) (List.length l).
Proof.
  intro H. unfold slice0.
  destruct (Z.ltb_spec n 0); [lia|].
  apply length_firstn.
Qed.

End SortFacts.

(** ** Numbers *)

Module NumberFacts.
Import Js.

Lemma Math_pow_unit (x y : Q) :
  0 <= x -> x < 1 -> 0 < y -> (0 <= Math_pow x y < 1)%R.
Proof.
  intros Hx0 Hx1 Hy. unfold Math_pow.
  destruct (Qeq_bool x 0) eqn:E; [lra|].
  assert (Hpos : 0 < x).
  { destruct (Qlt_le_dec 0 x) as [?|Hle]; [assumption|].
    assert (x == 0) as Heq by lra.
    apply Qeq_bool_iff in Heq. congruence. }
  apply Qlt_Rlt in Hpos, Hx1, Hy.
  replace (Q2R 0) with 0%R in * by (unfold Q2R; simpl; lra).
  replace (Q2R 1) with 1%R in * by (unfold Q2R; simpl; lra).
  unfold Rpower. split.
  - left. apply exp_pos.
  - rewrite <- exp_0. apply exp_increasing.
    assert (ln (Q2R x) < 0)%R.
    { rewrite <- ln_1. now apply ln_increasing. }
    nra.
Qed.

Lemma Int_part_ge (n : Z) (r : R) : (IZR n <= r)%R -> (n <= Int_part r)%Z.
Proof.
  intro H. destruct (base_Int_part r) as [_ Hgt].
  assert (IZR (n - 1) < IZR (Int_part r))%R by (rewrite minus_IZR; lra).
  apply lt_IZR in H0. lia.
Qed.

Lemma Int_part_le (n : Z) (r : R) : (r < IZR n + 1)%R -> (Int_part r <= n)%Z.
Proof.
  intro H. destruct (base_Int_part r) as [Hle _].
  assert (IZR (Int_part r) < IZR (n + 1))%R by (rewrite plus_IZR; lra).
  apply lt_IZR in H0. lia.
Qed.

(** Rounding to three decimals keeps a number between two bounds that
    have three decimals themselves. *)
Lemma toFixed3_between (lo hi : Z) (x : R) :
  (IZR lo / 1000 <= x <= IZR hi / 1000)%R ->
  inject_Z lo / 1000 <= toFixed3 x /\ toFixed3 x <= inject_Z hi / 1000.
Proof.
  intros [Hlo Hhi]. unfold toFixed3.
  assert (lo <= Int_part (x * 1000 + / 2))%Z by (apply Int_part_ge; lra).
  assert (Int_part (x * 1000 + / 2) <= hi)%Z by (apply Int_part_le; lra).
  split; unfold Qle, Qdiv, Qmult, Qinv, inject_Z; simpl; lia.
Qed.

Lemma Qfloor_scaled_unit (r : Q) (k : Z) :
  (0 < k)%Z -> 0 <= r -> r < 1 ->
  (0 <= Math_floor (r * inject_Z k) < k)%Z.
Proof.
  intros Hk H0 H1. unfold Math_floor.
  assert (Hk' : 0 < inject_Z k) by (unfold Qlt, inject_Z; simpl; lia).
  split.
  - change 0%Z with (Qfloor (inject_Z 0)) at 1.
    apply Qfloor_resp_le. change (inject_Z 0) with 0.
    apply Qmult_le_0_compat; [assumption|now apply Qlt_le_weak].
  - assert (H := Qfloor_le (r * inject_Z k)).
    assert (Hm : r * inject_Z k < 1 * inject_Z k)
      by (apply Qmult_lt_compat_r; assumption).
    rewrite Qmult_1_l in Hm.
    assert (Hlt : inject_Z (Qfloor (r * inject_Z k)) < inject_Z k)
      by (eapply Qle_lt_trans; eassumption).
    rewrite <- Zlt_Qlt in Hlt. exact Hlt.
Qed.

End NumberFacts.

(** ** The random source *)

Module RandomFacts.
Import Random.

Lemma in_unit_tail (s : Source) : in_unit s -> in_unit (snd (Math_random s)).
Proof. intros H n. apply (H (S n)). Qed.

Lemma mapM_length {A B : Type} (f : A -> Rand B) (l : list A) (s : Source) :
  List.length (fst (mapM f l s)) = List.length l.
Proof.
  revert s. induction l as [|x l IH]; intro s; simpl; [reflexivity|].
  unfold bind. destruct (f x s) as [y s1].
  specialize (IH s1). destruct (mapM f l s1) as [ys s2].
  simpl in *. now rewrite IH.
Qed.

(** A property every call of [f] establishes on a source of numbers in
    [0, 1) holds of every element [l.map(f)] produces. *)
Lemma mapM_Forall {A B : Type} (f : A -> Rand B) (P : B -> Prop) :
  (forall x s, in_unit s -> P (fst (f x s)) /\ in_unit (snd (f x s))) ->
  forall l s, in_unit s ->
    Forall P (fst (mapM f l s)) /\ in_unit (snd (mapM f l s)).
Proof.
  intros Hf. induction l as [|x l IH]; intros s Hs; simpl.
  - split; [constructor|assumption].
  - unfold bind. destruct (Hf x s Hs) as [Hp Hs1].
    destruct (f x s) as [y s1]. simpl in Hp, Hs1.
    destruct (IH s1 Hs1) as [Hps Hs2].
    destruct (mapM f l s1) as [ys s2]. simpl in *.
    split; [constructor|]; assumption.
Qed.

Lemma constant_in_unit (q : Q) : 0 <= q -> q < 1 -> in_unit (constant q).
Proof. intros H0 H1 n. split; assumption. Qed.

End RandomFacts.

(** ** The mock services *)

Module ServiceFacts.
Import Js Random SortFacts NumberFacts RandomFacts.

Lemma generateConfidence_range (s : Source) :
  0 <= s 0%nat -> s 0%nat < 1 ->
  0.5 <= fst (DetectService.generateConfidence s) /\
  fst (DetectService.generateConfidence s) <= 0.99.
Proof.
  intros H0 H1. unfold DetectService.generateConfidence, bind, Math_random, ret.
  simpl.
  assert (Hp := Math_pow_unit (s 0%nat) 0.7 H0 H1 ltac:(reflexivity)).
  match goal with
  | |- _ <= toFixed3 ?x /\ _ =>
      destruct (toFixed3_between 500 990 x) as [Hlo Hhi]
  end.
  { unfold Q2R; simpl. lra. }
  split.
  - eapply Qle_trans; [|exact Hlo]. now apply Qle_bool_iff.
  - eapply Qle_trans; [exact Hhi|]. now apply Qle_bool_iff.
Qed.

Lemma generateSimilarity_range (s : Source) :
  0 <= s 0%nat -> s 0%nat < 1 ->
  0.72 <= fst (RecommendService.generateSimilarity s) /\
  fst (RecommendService.generateSimilarity s) <= 0.95.
Proof.
  intros H0 H1. unfold RecommendService.generateSimilarity, bind, Math_random, ret.
  simpl.
  assert (Hp := Math_pow_unit (s 0%nat) 0.6 H0 H1 ltac:(reflexivity)).
  match goal with
  | |- _ <= toFixed3 ?x /\ _ =>
      destruct (toFixed3_between 720 950 x) as [Hlo Hhi]
  end.
  { unfold Q2R; simpl. lra. }
  split.
  - eapply Qle_trans; [|exact Hlo]. now apply Qle_bool_iff.
  - eapply Qle_trans; [exact Hhi|]. now apply Qle_bool_iff.
Qed.

(** What is asked of the engine's [sort] under the random comparator: it
    returns the elements it was given, in some order, and the numbers it
    leaves in the source are those [Math.random] would return next. *)
Definition permutes (shuffle : list Tile -> Rand (list Tile)) : Prop :=
  forall l s, Permutation (fst (shuffle l s)) l.

Definition keeps_unit (shuffle : list Tile -> Rand (list Tile)) : Prop :=
  forall l s, in_unit s -> in_unit (snd (shuffle l s)).

Lemma insert_random_spec {A : Type} (x : A) (l : list A) (s : Source) :
  Permutation (fst (RecommendService.insert_random x l s)) (x :: l) /\
  (in_unit s -> in_unit (snd (RecommendService.insert_random x l s))).
Proof.
  revert s. induction l as [|y l IH]; intro s; simpl.
  - split; [apply Permutation_refl|trivial].
  - unfold bind, Math_random.
    destruct (Qle_bool (s 0%nat - 0.5) 0).
    + split; [apply Permutation_refl|]. intros H n. apply (H (S n)).
    + destruct (IH (fun n => s (S n))) as [Hp Hu].
      destruct (RecommendService.insert_random x l (fun n => s (S n))) as [r s'].
      simpl in *. split.
      * rewrite perm_swap. now apply perm_skip.
      * intro H. apply Hu. intro n. apply (H (S n)).
Qed.

Lemma sort_random_spec {A : Type} (l : list A) (s : Source) :
  Permutation (fst (RecommendService.sort_random l s)) l /\
  (in_unit s -> in_unit (snd (RecommendService.sort_random l s))).
Proof.
  revert s. induction l as [|x l IH]; intro s; simpl.
  - split; [constructor|trivial].
  - unfold bind. destruct (IH s) as [Hp Hu].
    destruct (RecommendService.sort_random l s) as [sorted s1]. simpl in *.
    destruct (insert_random_spec x sorted s1) as [Hp' Hu'].
    split.
    + rewrite Hp'. now apply perm_skip.
    + auto.
Qed.

Lemma sort_random_permutes : permutes RecommendService.sort_random.
Proof. intros l s. apply sort_random_spec. Qed.

Lemma sort_random_keeps_unit : keeps_unit RecommendService.sort_random.
Proof. intros l s. apply sort_random_spec. Qed.

(** *** The detection service *)

Lemma detectTile_resolves (imageFile : File) (s : Source) :
  exists delay,
    fst (DetectService.detectTile imageFile s) =
    Resolved delay (fst (DetectService.generateMockDetections (snd (Math_random s)))).
Proof.
  unfold DetectService.detectTile, DetectService.getRandomDelay, bind, ret,
    Math_random. simpl.
  destruct (DetectService.generateMockDetections _) as [r s'].
  eexists. reflexivity.
Qed.

Lemma generateMockDetections_length (s : Source) :
  in_unit s ->
  let r := fst (DetectService.generateMockDetections s) in
  detections r = [] \/ List.length (detections r) = 3%nat.
Proof.
  intros Hs. unfold DetectService.generateMockDetections, bind, Math_random, ret.
  destruct (negb _); cbv zeta; [now left|right].
  destruct (Hs 1%nat) as [H0 H1].
  assert (H := Qfloor_scaled_unit (s 1%nat) 3 ltac:(lia) H0 H1).
  change (inject_Z 3) with 3 in H.
  rewrite slice0_all by (cbn [List.length DetectService.MOCK_TILES]; lia).
  match goal with
  | |- context [mapM ?f ?l ?s] =>
      assert (Hlen := mapM_length f l s); destruct (mapM f l s) as [ds s']
  end.
  cbn [fst snd detections] in *. now rewrite sort_length, Hlen.
Qed.

Lemma generateMockDetections_sorted (s : Source) :
  descending confidence (detections (fst (DetectService.generateMockDetections s))).
Proof.
  unfold DetectService.generateMockDetections, bind, Math_random, ret.
  destruct (negb _); simpl; [constructor|].
  match goal with
  | |- context [mapM ?f ?l ?s] => destruct (mapM f l s) as [ds s']
  end.
  simpl. apply (sort_descending confidence).
Qed.

Lemma generateMockDetections_range (s : Source) :
  in_unit s ->
  Forall (fun d => 0.5 <= confidence d /\ confidence d <= 0.99)
         (detections (fst (DetectService.generateMockDetections s))).
Proof.
  intros Hs. unfold DetectService.generateMockDetections, bind, Math_random, ret.
  destruct (negb _); cbv zeta; [constructor|].
  match goal with
  | |- context [mapM ?f ?l0 ?s0] =>
      assert (HF : Forall (fun d => 0.5 <= confidence d /\ confidence d <= 0.99)
                          (fst (mapM f l0 s0)));
      [apply mapM_Forall|]
  end.
  - intros x s0 Hs0.
    assert (Hc := generateConfidence_range s0 (proj1 (Hs0 0%nat)) (proj2 (Hs0 0%nat))).
    assert (Hu : in_unit (snd (DetectService.generateConfidence s0))).
    { intro n. apply (Hs0 (S n)). }
    destruct (DetectService.generateConfidence s0) as [c s1].
    cbn [fst snd confidence] in *. split; [exact Hc|exact Hu].
  - intro n. apply (Hs (S (S n))).
  - match goal with
    | |- context [mapM ?f ?l ?s] => destruct (mapM f l s) as [ds s']
    end.
    cbn [fst snd detections] in *. now apply sort_Forall.
Qed.

(** *** The recommendation service *)

Lemma availableTiles_length (referenceTile : option Detection) :
  (7 <= List.length (RecommendService.availableTiles referenceTile) <= 8)%nat.
Proof.
  unfold RecommendService.availableTiles, RecommendService.MOCK_RECOMMENDATION_TILES.
  destruct (RecommendService.optional_id referenceTile) as [m|];
    cbn [filter RecommendService.strict_neq tile_id].
  - repeat match goal with
           | |- context [(?n =? m)%Z] => destruct (Z.eqb_spec n m)
           end; cbn [negb List.length]; lia.
  - cbn [List.length]. lia.
Qed.

Section Engine.
Variable shuffle : list Tile -> Rand (list Tile).

Lemma getTileRecommendations_rejects (referenceTile : option Detection) (s : Source) :
  RecommendService.truthy (RecommendService.optional_id referenceTile) = false ->
  fst (RecommendService.getTileRecommendations shuffle referenceTile s) =
  Rejected "Invalid reference tile provided".
Proof.
  intro H. unfold RecommendService.getTileRecommendations.
  rewrite H. rewrite orb_true_r. reflexivity.
Qed.

Lemma getTileRecommendations_resolves (referenceTile : option Detection) (s : Source) :
  RecommendService.truthy (RecommendService.optional_id referenceTile) = true ->
  exists delay,
    fst (RecommendService.getTileRecommendations shuffle referenceTile s) =
    Resolved delay
      (fst (RecommendService.generateMockRecommendations shuffle referenceTile
              (snd (Math_random s)))).
Proof.
  intro H. unfold RecommendService.getTileRecommendations.
  rewrite H. destruct referenceTile as [t|]; [|discriminate].
  cbn [negb orb].
  unfold RecommendService.getRandomDelay, bind, ret, Math_random.
  cbn [fst snd].
  destruct (RecommendService.generateMockRecommendations _ _ _) as [r s'].
  eexists. reflexivity.
Qed.

Lemma generateMockRecommendations_sorted
    (referenceTile : option Detection) (s : Source) :
  descending similarity
    (recommendations
       (fst (RecommendService.generateMockRecommendations shuffle referenceTile s))).
Proof.
  unfold RecommendService.generateMockRecommendations, bind, Math_random, ret.
  destruct (negb _); cbv zeta; [constructor|].
  destruct (shuffle _ _) as [shuffled s1].
  match goal with
  | |- context [mapM ?f ?l ?s] => destruct (mapM f l s) as [recs s2]
  end.
  cbn [fst recommendations]. apply (sort_descending similarity).
Qed.

Lemma generateMockRecommendations_length
    (referenceTile : option Detection) (s : Source) :
  permutes shuffle -> in_unit s ->
  let r := fst (RecommendService.generateMockRecommendations shuffle referenceTile s) in
  recommendations r = [] \/
  ((5 <= List.length (recommendations r) <= 8)%nat /\
   (List.length (recommendations r) <=
    List.length (RecommendService.availableTiles referenceTile))%nat).
Proof.
  intros Hperm Hs.
  unfold RecommendService.generateMockRecommendations, bind, Math_random, ret.
  destruct (negb _); cbv zeta; [now left|right].
  destruct (Hs 1%nat) as [H0 H1].
  assert (Hn := Qfloor_scaled_unit (s 1%nat) 4 ltac:(lia) H0 H1).
  change (inject_Z 4) with 4 in Hn.
  assert (Hav := availableTiles_length referenceTile).
  match goal with
  | |- context [shuffle ?l ?s] =>
      assert (Hlen := Permutation_length (Hperm l s));
      destruct (shuffle l s) as [shuffled s1]
  end.
  match goal with
  | |- context [mapM ?f ?l ?s] =>
      assert (Hm := mapM_length f l s); destruct (mapM f l s) as [recs s2]
  end.
  cbn [fst snd recommendations] in *.
  rewrite sort_length, Hm, slice0_length by lia. lia.
Qed.

Lemma generateMockRecommendations_range
    (referenceTile : option Detection) (s : Source) :
  keeps_unit shuffle -> in_unit s ->
  Forall (fun r => 0.72 <= similarity r /\ similarity r <= 0.95)
    (recommendations
       (fst (RecommendService.generateMockRecommendations shuffle referenceTile s))).
Proof.
  intros Hkeep Hs.
  unfold RecommendService.generateMockRecommendations, bind, Math_random, ret.
  destruct (negb _); cbv zeta; [constructor|].
  match goal with
  | |- context [shuffle ?l ?s] =>
      assert (Hs1 : in_unit (snd (shuffle l s)))
        by (apply Hkeep; intro n; apply (Hs (S (S n))));
      destruct (shuffle l s) as [shuffled s1]
  end.
  cbn [snd] in Hs1.
  match goal with
  | |- context [mapM ?f ?l0 ?s0] =>
      assert (HF : Forall (fun r => 0.72 <= similarity r /\ similarity r <= 0.95)
                          (fst (mapM f l0 s0)));
      [apply mapM_Forall|]
  end.
  - intros x s0 Hs0.
    assert (Hc := generateSimilarity_range s0 (proj1 (Hs0 0%nat)) (proj2 (Hs0 0%nat))).
    assert (Hu : in_unit (snd (RecommendService.generateSimilarity s0))).
    { intro n. apply (Hs0 (S n)). }
    destruct (RecommendService.generateSimilarity s0) as [c s2].
    cbn [fst snd similarity] in *. split; [exact Hc|exact Hu].
  - exact Hs1.
  - match goal with
    | |- context [mapM ?f ?l ?s] => destruct (mapM f l s) as [recs s2]
    end.
    cbn [fst snd recommendations] in *. now apply sort_Forall.
Qed.

End Engine.

End ServiceFacts.

(** ** The claims about the mock services *)

Module Sample.
Import Random.

(** A 2 MiB JPEG. *)
Definition photo : File :=
  {| name := "tile.jpg"; type := "image/jpeg"; size := 2 * 1024 * 1024 |}.

(** The first tile of the detection catalog, as a detection. *)
Definition tile1 : Detection :=
  {| id := Some 1%Z; image := "/mock/tile1.svg"; confidence := 0.91 |}.

(** A detection whose identifier is the number zero. *)
Definition tile0 : Detection :=
  {| id := Some 0%Z; image := "/mock/tile1.svg"; confidence := 0.91 |}.

(** The source that always returns one half. *)
Definition halves : Source := constant 0.5.

Lemma halves_in_unit : in_unit halves.
Proof. intro n. split; reflexivity || discriminate. Defined.

End Sample.

Example slice0_past_the_end : Js.slice0 5 [1; 2; 3]%Z = [1; 2; 3]%Z.
Proof. reflexivity. Qed.

Example slice0_negative : Js.slice0 (-1) [1; 2; 3]%Z = [1; 2]%Z.
Proof. reflexivity. Qed.

Example sort_keeps_ties_in_order :
  Js.sort (fun a b => snd b - snd a)
          [("a", 0.6); ("b", 0.9); ("c", 0.6); ("d", 0.9)]%string
  = [("b", 0.9); ("d", 0.9); ("a", 0.6); ("c", 0.6)]%string.
Proof. reflexivity. Qed.

Example delay_of_a_half :
  fst (DetectService.getRandomDelay Sample.halves) = 1750%Z.
Proof. reflexivity. Qed.

Example no_detection_below_a_quarter :
  fst (DetectService.generateMockDetections (Random.constant 0.2))
  = {| detections := [] |}.
Proof. reflexivity. Qed.

Example sort_random_reorders :
  fst (RecommendService.sort_random [1; 2; 3]%Z
         (Random.from_list [0.9; 0.1; 0.9] 0.5))
  = [1; 3; 2]%Z.
Proof. reflexivity. Qed.

Example available_without_103 :
  map tile_id
      (RecommendService.availableTiles
         (Some {| id := Some 103%Z; image := "/mock/tile3.svg"; confidence := 0.8 |}))
  = [101; 102; 104; 105; 106; 107; 108]%Z.
Proof. reflexivity. Qed.

(** What holds of the value a promise resolves with, if it resolves. *)
Definition on_resolution {A : Type} (o : Outcome A) (P : A -> Prop) : Prop :=
  match o with
  | Resolved _ value => P value
  | Rejected _ => True
  end.

(** The reference tiles [getTileRecommendations] turns down: no tile, a
    tile without [id], and a tile whose [id] is the number zero. *)
Definition falsy_reference (referenceTile : option Detection) : Prop :=
  referenceTile = None \/
  exists t, referenceTile = Some t /\ (id t = None \/ id t = Some 0%Z).

Lemma falsy_reference_truthy (referenceTile : option Detection) :
  falsy_reference referenceTile <->
  RecommendService.truthy (RecommendService.optional_id referenceTile) = false.
Proof.
  unfold falsy_reference. destruct referenceTile as [t|]; simpl.
  - destruct (id t) as [n|] eqn:E; simpl.
    + destruct (Z.eqb_spec n 0) as [->|Hn]; simpl.
      * split; [reflexivity|]. intros _. right. exists t. auto.
      * split; [|discriminate].
        intros [H|(t' & Ht & [H|H])]; [discriminate| |];
          injection Ht as <-; congruence.
    + split; [reflexivity|]. intros _. right. exists t. auto.
  - split; [reflexivity|]. now left.
Qed.

(** C1. A result set of the mock services that is not empty has between
    3 and 5 elements when it comes from the detection service, and between
    5 and 8 elements, and no more than the catalog has once the tile with
    the identifier of the reference tile is left out, when it comes from
    the recommendation service. *)
Theorem service_result_cardinality
    (shuffle : list Tile -> Random.Rand (list Tile))
    (imageFile : File) (referenceTile : option Detection) (s : Random.Source) :
  ServiceFacts.permutes shuffle ->
  Random.in_unit s ->
  on_resolution (fst (DetectService.detectTile imageFile s))
    (fun r => detections r = [] \/
              (3 <= List.length (detections r) <= 5)%nat) /\
  on_resolution (fst (RecommendService.getTileRecommendations shuffle referenceTile s))
    (fun r => recommendations r = [] \/
              ((5 <= List.length (recommendations r) <= 8)%nat /\
               (List.length (recommendations r) <=
                List.length (RecommendService.availableTiles referenceTile))%nat)).
Proof.
  intros Hperm Hs.
  assert (Hs' : Random.in_unit (snd (Random.Math_random s)))
    by now apply RandomFacts.in_unit_tail.
  split.
  - destruct (ServiceFacts.detectTile_resolves imageFile s) as [delay ->].
    cbn [on_resolution]. destruct (ServiceFacts.generateMockDetections_length _ Hs') as [H|H].
    + now left.
    + right. rewrite H. lia.
  - destruct (RecommendService.truthy (RecommendService.optional_id referenceTile)) eqn:E.
    + destruct (ServiceFacts.getTileRecommendations_resolves shuffle _ s E)
        as [delay ->].
      cbn [on_resolution]. now apply ServiceFacts.generateMockRecommendations_length.
    + rewrite ServiceFacts.getTileRecommendations_rejects by assumption.
      exact I.
Qed.

Lemma service_result_cardinality_witness :
  on_resolution (fst (DetectService.detectTile Sample.photo Sample.halves))
    (fun r => detections r = [] \/
              (3 <= List.length (detections r) <= 5)%nat) /\
  on_resolution
    (fst (RecommendService.getTileRecommendations RecommendService.sort_random
            (Some Sample.tile1) Sample.halves))
    (fun r => recommendations r = [] \/
              ((5 <= List.length (recommendations r) <= 8)%nat /\
               (List.length (recommendations r) <=
                List.length (RecommendService.availableTiles (Some Sample.tile1)))%nat)).
Proof.
  apply (service_result_cardinality RecommendService.sort_random
           Sample.photo (Some Sample.tile1) Sample.halves).
  - exact ServiceFacts.sort_random_permutes.
  - exact Sample.halves_in_unit.
Defined.

(** C5. The result set either mock service resolves with is in
    non-increasing order of score: of confidence for the detection
    service, of similarity for the recommendation service. *)
Theorem service_results_sorted
    (shuffle : list Tile -> Random.Rand (list Tile))
    (imageFile : File) (referenceTile : option Detection) (s : Random.Source) :
  on_resolution (fst (DetectService.detectTile imageFile s))
    (fun r => SortFacts.descending confidence (detections r)) /\
  on_resolution (fst (RecommendService.getTileRecommendations shuffle referenceTile s))
    (fun r => SortFacts.descending similarity (recommendations r)).
Proof.
  split.
  - destruct (ServiceFacts.detectTile_resolves imageFile s) as [delay ->].
    cbn [on_resolution]. apply ServiceFacts.generateMockDetections_sorted.
  - destruct (RecommendService.truthy (RecommendService.optional_id referenceTile)) eqn:E.
    + destruct (ServiceFacts.getTileRecommendations_resolves shuffle _ s E)
        as [delay ->].
      cbn [on_resolution]. apply ServiceFacts.generateMockRecommendations_sorted.
    + rewrite ServiceFacts.getTileRecommendations_rejects by assumption.
      exact I.
Qed.

(** C6. On numbers of the random source in [0, 1), the confidence
    [generateConfidence] returns is between 0.5 and 0.99 and the similarity
    [generateSimilarity] returns is between 0.72 and 0.95, after the
    rounding to three decimals; so is every score in a result set the
    services resolve with. *)
Theorem mock_scores_in_range
    (shuffle : list Tile -> Random.Rand (list Tile))
    (imageFile : File) (referenceTile : option Detection) (s : Random.Source) :
  ServiceFacts.keeps_unit shuffle ->
  Random.in_unit s ->
  (0.5 <= fst (DetectService.generateConfidence s) /\
   fst (DetectService.generateConfidence s) <= 0.99) /\
  (0.72 <= fst (RecommendService.generateSimilarity s) /\
   fst (RecommendService.generateSimilarity s) <= 0.95) /\
  on_resolution (fst (DetectService.detectTile imageFile s))
    (fun r => Forall (fun d => 0.5 <= confidence d /\ confidence d <= 0.99)
                     (detections r)) /\
  on_resolution (fst (RecommendService.getTileRecommendations shuffle referenceTile s))
    (fun r => Forall (fun x => 0.72 <= similarity x /\ similarity x <= 0.95)
                     (recommendations r)).
Proof.
  intros Hkeep Hs.
  assert (Hs' : Random.in_unit (snd (Random.Math_random s)))
    by now apply RandomFacts.in_unit_tail.
  destruct (Hs 0%nat) as [H0 H1].
  repeat split.
  - now apply ServiceFacts.generateConfidence_range.
  - now apply ServiceFacts.generateConfidence_range.
  - now apply ServiceFacts.generateSimilarity_range.
  - now apply ServiceFacts.generateSimilarity_range.
  - destruct (ServiceFacts.detectTile_resolves imageFile s) as [delay ->].
    cbn [on_resolution]. now apply ServiceFacts.generateMockDetections_range.
  - destruct (RecommendService.truthy (RecommendService.optional_id referenceTile)) eqn:E.
    + destruct (ServiceFacts.getTileRecommendations_resolves shuffle _ s E)
        as [delay ->].
      cbn [on_resolution]. now apply ServiceFacts.generateMockRecommendations_range.
    + rewrite ServiceFacts.getTileRecommendations_rejects by assumption.
      exact I.
Qed.

Lemma mock_scores_in_range_witness :
  (0.5 <= fst (DetectService.generateConfidence Sample.halves) /\
   fst (DetectService.generateConfidence Sample.halves) <= 0.99) /\
  (0.72 <= fst (RecommendService.generateSimilarity Sample.halves) /\
   fst (RecommendService.generateSimilarity Sample.halves) <= 0.95) /\
  on_resolution (fst (DetectService.detectTile Sample.photo Sample.halves))
    (fun r => Forall (fun d => 0.5 <= confidence d /\ confidence d <= 0.99)
                     (detections r)) /\
  on_resolution
    (fst (RecommendService.getTileRecommendations RecommendService.sort_random
            (Some Sample.tile1) Sample.halves))
    (fun r => Forall (fun x => 0.72 <= similarity x /\ similarity x <= 0.95)
                     (recommendations r)).
Proof.
  apply (mock_scores_in_range RecommendService.sort_random
           Sample.photo (Some Sample.tile1) Sample.halves).
  - exact ServiceFacts.sort_random_keeps_unit.
  - exact Sample.halves_in_unit.
Defined.

(** The recommend operation turns down a reference tile that carries an
    identifier, the number zero: it does not reject exactly when the tile
    is absent or has no identifier. *)
Lemma recommend_rejects_identifier_zero :
  ~ ((exists message,
        fst (RecommendService.getTileRecommendations RecommendService.sort_random
               (Some Sample.tile0) Sample.halves) = Rejected message)
     <-> (Some Sample.tile0 = None \/ id Sample.tile0 = None)).
Proof.
  intros [H _].
  destruct H as [H|H]; [|discriminate H|discriminate H].
  exists "Invalid reference tile provided"%string. reflexivity.
Qed.

(** C7, amended. The recommend operation rejects exactly when the
    reference tile is absent, has no identifier, or has the identifier
    zero.  For every other reference tile the promise resolves, and it
    resolves with an empty result set when the draw that decides it is
    below the probability of an empty result. *)
Theorem recommend_rejects_exactly_falsy_reference
    (shuffle : list Tile -> Random.Rand (list Tile))
    (referenceTile : option Detection) (s : Random.Source) :
  (falsy_reference referenceTile ->
   fst (RecommendService.getTileRecommendations shuffle referenceTile s) =
   Rejected "Invalid reference tile provided") /\
  (~ falsy_reference referenceTile ->
   exists delay results,
     fst (RecommendService.getTileRecommendations shuffle referenceTile s) =
     Resolved delay results) /\
  (~ falsy_reference referenceTile ->
   s 1%nat < RecommendService.EMPTY_RECOMMENDATION_PROBABILITY ->
   exists delay,
     fst (RecommendService.getTileRecommendations shuffle referenceTile s) =
     Resolved delay {| recommendations := [] |}).
Proof.
  assert (Hres : ~ falsy_reference referenceTile ->
                 RecommendService.truthy
                   (RecommendService.optional_id referenceTile) = true).
  { intro H. rewrite falsy_reference_truthy in H.
    now destruct (RecommendService.truthy _). }
  repeat split.
  - intro H. apply ServiceFacts.getTileRecommendations_rejects.
    now apply falsy_reference_truthy.
  - intro H.
    destruct (ServiceFacts.getTileRecommendations_resolves shuffle _ s (Hres H))
      as [delay E].
    eauto.
  - intros H Hlt.
    destruct (ServiceFacts.getTileRecommendations_resolves shuffle _ s (Hres H))
      as [delay ->].
    exists delay. f_equal.
    unfold RecommendService.generateMockRecommendations, Random.bind,
      Random.Math_random, Random.ret.
    cbn [fst snd].
    assert (Qle_bool RecommendService.EMPTY_RECOMMENDATION_PROBABILITY (s 1%nat) = false)
      as ->.
    { destruct (Qle_bool _ _) eqn:E; [|reflexivity].
      apply Qle_bool_iff in E. lra. }
    reflexivity.
Qed.

Lemma recommend_rejects_exactly_falsy_reference_witness :
  fst (RecommendService.getTileRecommendations RecommendService.sort_random
         (Some Sample.tile0) Sample.halves) =
  Rejected "Invalid reference tile provided" /\
  (exists delay,
     fst (RecommendService.getTileRecommendations RecommendService.sort_random
            (Some Sample.tile1) (Random.constant 0)) =
     Resolved delay {| recommendations := [] |}).
Proof.
  split.
  - apply (recommend_rejects_exactly_falsy_reference RecommendService.sort_random
             (Some Sample.tile0) Sample.halves).
    right. exists Sample.tile0. split; [reflexivity|]. right. reflexivity.
  - apply (recommend_rejects_exactly_falsy_reference RecommendService.sort_random
             (Some Sample.tile1) (Random.constant 0)).
    + intros [H|(t & Ht & [H|H])]; [discriminate H| |];
        injection Ht as <-; discriminate H.
    + reflexivity.
Defined.

(** ** The validation of a selected file *)

(** A 15 MiB PNG. *)
Example validateFile_too_large :
  ImageUploader.validateFile
    (Some {| name := "big.png"; type := "image/png"; size := 15 * 1024 * 1024 |})
  = Some "File too large. Maximum size is 10MB."%string.
Proof. reflexivity. Qed.

Example validateFile_gif :
  ImageUploader.validateFile
    (Some {| name := "tile.gif"; type := "image/gif"; size := 1024 |})
  = Some "Invalid file type. Please upload PNG, JPG, or JPEG images only."%string.
Proof. reflexivity. Qed.

Lemma existsb_eqb_In (x : string) (l : list string) :
  existsb (String.eqb x) l = true <-> In x l.
Proof.
  rewrite existsb_exists. split.
  - intros (y & Hy & E). apply String.eqb_eq in E. now subst.
  - intro H. exists x. split; [assumption|apply String.eqb_refl].
Qed.

(** C4. [validateFile] accepts a file (returns no error) exactly when the
    file is present, its type is in the allow-list (the type of PNG
    images, and the type of JPEG images under either of its two
    spellings) and its size is at most 10 MiB; otherwise it returns a
    reason, which is not empty.  [handleFile] hands an accepted file on
    as it is, and hands nothing on otherwise. *)
Theorem validateFile_accepts_exactly (file : option File) :
  ImageUploader.ALLOWED_TYPES = ["image/png"; "image/jpeg"; "image/jpg"]%string /\
  ImageUploader.MAX_FILE_SIZE = (10 * 2 ^ 20)%Z /\
  (ImageUploader.validateFile file = None <->
   exists f, file = Some f /\
             In (type f) ImageUploader.ALLOWED_TYPES /\
             (size f <= ImageUploader.MAX_FILE_SIZE)%Z) /\
  match ImageUploader.validateFile file with
  | None => ImageUploader.handleFile file = (None, file)
  | Some reason =>
      reason <> EmptyString /\
      ImageUploader.handleFile file = (Some reason, None)
  end.
Proof.
  split; [reflexivity|]. split; [reflexivity|]. split.
  - unfold ImageUploader.validateFile. destruct file as [f|].
    + destruct (existsb _ _) eqn:Et; cbn [negb].
      * destruct (Z.gtb_spec (size f) ImageUploader.MAX_FILE_SIZE) as [Hs|Hs].
        -- split; [discriminate|]. intros (f' & Hf & _ & Hle).
           injection Hf as <-. lia.
        -- split; [|reflexivity]. intros _. exists f.
           repeat split; [now apply existsb_eqb_In|lia].
      * split; [discriminate|]. intros (f' & Hf & Hin & _).
        injection Hf as <-. apply existsb_eqb_In in Hin. congruence.
    + split; [discriminate|]. intros (f & Hf & _). discriminate.
  - unfold ImageUploader.handleFile.
    destruct (ImageUploader.validateFile file) as [reason|] eqn:E;
      [|reflexivity].
    split; [|reflexivity].
    unfold ImageUploader.validateFile in E.
    destruct file as [f|];
      [destruct (negb _); [|destruct (_ >? _)%Z]|];
      try discriminate; injection E as <-; discriminate.
Qed.

Lemma validateFile_accepts_exactly_witness :
  ImageUploader.validateFile (Some Sample.photo) = None /\
  ImageUploader.handleFile (Some Sample.photo) = (None, Some Sample.photo).
Proof.
  assert (H := validateFile_accepts_exactly (Some Sample.photo)).
  destruct H as (_ & _ & Hiff & Hpass).
  assert (E : ImageUploader.validateFile (Some Sample.photo) = None).
  { apply Hiff. exists Sample.photo. repeat split.
    - right. left. reflexivity.
    - vm_compute. discriminate. }
  split; [exact E|].
  rewrite E in Hpass. exact Hpass.
Defined.

(** ** The result page *)

Module ResultFacts.
Import Js SortFacts.

(** The detections of a result in the order the page ranks them. *)
Definition ranked (r : DetectionResults) : list Detection :=
  sort (by_key_desc confidence) (detections r).

Lemma hasDetections_true (r : DetectionResults) :
  detections r <> [] -> ResultPage.hasDetections (Some r) = true.
Proof.
  intro H. unfold ResultPage.hasDetections.
  destruct (detections r); [congruence|reflexivity].
Qed.

Lemma topDetections_ranked (r : DetectionResults) :
  detections r <> [] ->
  ResultPage.topDetections (Some r) = firstn 3 (ranked r).
Proof.
  intro H. unfold ResultPage.topDetections.
  rewrite hasDetections_true by assumption.
  apply (slice0_firstn 3).
Qed.

Lemma ranked_nonempty (r : DetectionResults) :
  detections r <> [] -> exists d rest, ranked r = d :: rest.
Proof.
  intro H. unfold ranked.
  destruct (sort _ (detections r)) as [|d rest] eqn:E; [|eauto].
  exfalso. apply H. apply Permutation_nil.
  rewrite <- E. apply sort_perm.
Qed.

Lemma cards_from_content (i : nat) (l : list Detection) :
  map (fun c => (ResultPage.card_image c, ResultPage.card_confidence c))
      (ResultPage.cards_from i l)
  = map (fun d => (image d, confidence d)) l.
Proof.
  revert i. induction l as [|d l IH]; intro i; simpl; [reflexivity|].
  now rewrite IH.
Qed.

Lemma cards_from_rank (i : nat) (l : list Detection) :
  map ResultPage.rank (ResultPage.cards_from i l) = seq (i + 1) (List.length l).
Proof.
  revert i. induction l as [|d l IH]; intro i; simpl; [reflexivity|].
  now rewrite IH.
Qed.

(** In a list in non-increasing order, what comes after the first [n]
    elements does not exceed any of them. *)
Lemma descending_split {A : Type} (key : A -> Q) (n : nat) (l : list A) :
  descending key l ->
  Forall (fun shown => Forall (fun hidden => key hidden <= key shown) (skipn n l))
         (firstn n l).
Proof.
  unfold descending. revert l. induction n as [|n IH]; intros l H.
  - constructor.
  - destruct l as [|x l]; [constructor|].
    inversion H as [|? ? Hl Hx]; subst.
    cbn [firstn skipn]. constructor.
    + rewrite <- (firstn_skipn n l) in Hx. apply Forall_app in Hx. tauto.
    + now apply IH.
Qed.

End ResultFacts.

(** C8. On the result page with a detection set that is not empty, the
    "Find Similar Tiles" action, which takes no tile from the user, stores
    as reference tile the detection with the highest confidence, the
    earliest in the order the set was received among those that share it,
    and moves to the recommendation page. *)
Theorem find_similar_defaults_to_first_highest
    (w : Workflow.World) (r : DetectionResults) :
  App.currentPage (Workflow.app w) = App.result ->
  App.detectionResults (Workflow.app w) = Some r ->
  detections r <> [] ->
  exists d w',
    SortFacts.first_highest confidence d (detections r) /\
    ResultPage.handleFindSimilar (Some r) = Some d /\
    Workflow.step w Workflow.click_find_similar = Some w' /\
    App.selectedTileForRecommendation (Workflow.app w') = Some d /\
    App.currentPage (Workflow.app w') = App.recommendation.
Proof.
  intros Hpage Hres Hne.
  destruct (ResultFacts.ranked_nonempty r Hne) as (d & rest & E).
  assert (Hfind : ResultPage.handleFindSimilar (Some r) = Some d).
  { unfold ResultPage.handleFindSimilar.
    rewrite ResultFacts.topDetections_ranked, E by assumption. reflexivity. }
  exists d.
  unfold Workflow.step. rewrite Hpage, Hres.
  unfold ResultPage.render.
  rewrite ResultFacts.hasDetections_true by assumption.
  cbn [ResultPage.find_similar_button]. rewrite Hfind.
  cbn [App.handleFindSimilar App.selectedTileForRecommendation
       RecommendationPage.effect RecommendationPage.initial
       RecommendationPage.hasFetchedRef].
  eexists. split; [|split; [reflexivity|split; [reflexivity|split; reflexivity]]].
  eapply SortFacts.sort_head_first_highest. exact E.
Qed.

(** C10. For a detection set that is not empty the result page shows the
    first three detections in the order of confidence, highest first (all
    of them when there are fewer), one card each, ranked from 1; the count
    it reports is the smaller of 3 and the number of detections; no
    detection it leaves out has a higher confidence than one it shows; and
    the tile its "Find Similar Tiles" action selects is the first it
    shows. *)
Theorem result_page_shows_top_three (r : DetectionResults) :
  detections r <> [] ->
  let shown := firstn 3 (ResultFacts.ranked r) in
  let hidden := skipn 3 (ResultFacts.ranked r) in
  let view := ResultPage.render (Some r) in
  Permutation (shown ++ hidden) (detections r) /\
  SortFacts.descending confidence (shown ++ hidden) /\
  Forall (fun s => Forall (fun h => confidence h <= confidence s) hidden) shown /\
  ResultPage.topDetections (Some r) = shown /\
  ResultPage.results_summary view = Some (Nat.min 3 (List.length (detections r))) /\
  map (fun c => (ResultPage.card_image c, ResultPage.card_confidence c))
      (ResultPage.tile_cards view)
  = map (fun d => (image d, confidence d)) shown /\
  map ResultPage.rank (ResultPage.tile_cards view) = seq 1 (List.length shown) /\
  (List.length (ResultPage.tile_cards view) <= 3)%nat /\
  ResultPage.handleFindSimilar (Some r) = hd_error shown.
Proof.
  intros Hne shown hidden view.
  assert (Htop := ResultFacts.topDetections_ranked r Hne).
  assert (Hsorted : SortFacts.descending confidence (ResultFacts.ranked r))
    by apply SortFacts.sort_descending.
  assert (Hview : view =
                  {| ResultPage.results_summary := Some (List.length shown);
                     ResultPage.tile_cards := ResultPage.cards_from 0 shown;
                     ResultPage.no_detections := false;
                     ResultPage.find_similar_button := true;
                     ResultPage.reset_button := true |}).
  { unfold view, ResultPage.render.
    rewrite ResultFacts.hasDetections_true, Htop by assumption. reflexivity. }
  assert (Hlen : List.length shown = Nat.min 3 (List.length (detections r))).
  { unfold shown. rewrite length_firstn. unfold ResultFacts.ranked.
    now rewrite SortFacts.sort_length. }
  unfold shown, hidden in *. rewrite firstn_skipn.
  repeat split.
  - apply SortFacts.sort_perm.
  - exact Hsorted.
  - now apply ResultFacts.descending_split.
  - exact Htop.
  - rewrite Hview. cbn [ResultPage.results_summary]. now rewrite Hlen.
  - rewrite Hview. apply ResultFacts.cards_from_content.
  - rewrite Hview. apply (ResultFacts.cards_from_rank 0).
  - rewrite Hview. cbn [ResultPage.tile_cards].
    rewrite <- (length_map ResultPage.rank), (ResultFacts.cards_from_rank 0).
    rewrite length_seq, Hlen. lia.
  - unfold ResultPage.handleFindSimilar. rewrite Htop.
    now destruct (firstn 3 (ResultFacts.ranked r)).
Qed.

(** ** Scenarios *)

Module Scenario.
Import Workflow.

Definition d77 : Detection :=
  {| id := Some 1%Z; image := "/mock/tile1.svg"; confidence := 0.77 |}.
Definition d91 : Detection :=
  {| id := Some 2%Z; image := "/mock/tile2.svg"; confidence := 0.91 |}.
Definition d63 : Detection :=
  {| id := Some 3%Z; image := "/mock/tile3.svg"; confidence := 0.63 |}.
Definition d91' : Detection :=
  {| id := Some 4%Z; image := "/mock/tile1.svg"; confidence := 0.91 |}.

(** Four detections, two of which share the highest confidence. *)
Definition four : DetectionResults :=
  {| detections := [d77; d91; d63; d91'] |}.

(** A second file. *)
Definition other_photo : File :=
  {| name := "other.png"; type := "image/png"; size := 4096 |}.

(** A file is selected, detection is asked for and resolves with [four]. *)
Definition to_result : list Event :=
  [ select_file (Some Sample.photo);
    click_detect;
    detect_settles (Resolved 1700 four) ].

(** The world [to_result] leads to. *)
Definition on_result : World :=
  {| app := {| App.currentPage := App.result;
               App.uploadedImage := Some Sample.photo;
               App.imagePreview := Some 0%nat;
               App.detectionResults := Some four;
               App.selectedTileForRecommendation := None |};
     urls := {| Browser.live := [0%nat]; Browser.next := 1%nat |};
     uploadPage := UploadPage.initial;
     recommendationPage := RecommendationPage.initial;
     in_flight := [];
     issued := [detect_call Sample.photo] |}.

(** [on_result] after "Find Similar Tiles": the recommendation call for
    the default tile is in flight. *)
Definition finding : World :=
  {| app := {| App.currentPage := App.recommendation;
               App.uploadedImage := Some Sample.photo;
               App.imagePreview := Some 0%nat;
               App.detectionResults := Some four;
               App.selectedTileForRecommendation := Some d91 |};
     urls := {| Browser.live := [0%nat]; Browser.next := 1%nat |};
     uploadPage := UploadPage.initial;
     recommendationPage :=
       {| RecommendationPage.isLoading := true;
          RecommendationPage.recommendations := None;
          RecommendationPage.error := None;
          RecommendationPage.hasFetchedRef := true |};
     in_flight := [recommend_call d91];
     issued := [detect_call Sample.photo; recommend_call d91] |}.


(** A file is selected, then another one in its place, detection
    resolves, and the workflow is reset from the result page. *)
Definition replace_then_reset : list Event :=
  [ select_file (Some Sample.photo);
    select_file (Some other_photo);
    click_detect;
    detect_settles (Resolved 1700 four);
    click_reset ].

(** A file is selected and detection is asked for: the call is in flight. *)
Definition detecting : World :=
  {| app := {| App.currentPage := App.upload;
               App.uploadedImage := Some Sample.photo;
               App.imagePreview := Some 0%nat;
               App.detectionResults := None;
               App.selectedTileForRecommendation := None |};
     urls := {| Browser.live := [0%nat]; Browser.next := 1%nat |};
     uploadPage := {| UploadPage.isProcessing := true;
                      UploadPage.error := None;
                      UploadPage.showCamera := false |};
     recommendationPage := RecommendationPage.initial;
     in_flight := [detect_call Sample.photo];
     issued := [detect_call Sample.photo] |}.


End Scenario.

Example run_to_result :
  Workflow.run Workflow.initial Scenario.to_result = Some Scenario.on_result.
Proof. reflexivity. Qed.

Example run_to_detecting :
  Workflow.run Workflow.initial
    [Workflow.select_file (Some Sample.photo); Workflow.click_detect]
  = Some Scenario.detecting.
Proof. reflexivity. Qed.

Example run_to_finding :
  Workflow.run Workflow.initial (Scenario.to_result ++ [Workflow.click_find_similar])
  = Some Scenario.finding.
Proof. reflexivity. Qed.

Example ranked_four :
  ResultFacts.ranked Scenario.four
  = [Scenario.d91; Scenario.d91'; Scenario.d77; Scenario.d63].
Proof. reflexivity. Qed.

Example find_similar_four :
  ResultPage.handleFindSimilar (Some Scenario.four) = Some Scenario.d91.
Proof. reflexivity. Qed.

Lemma find_similar_defaults_to_first_highest_witness :
  exists d w',
    SortFacts.first_highest confidence d (detections Scenario.four) /\
    ResultPage.handleFindSimilar (Some Scenario.four) = Some d /\
    Workflow.step Scenario.on_result Workflow.click_find_similar = Some w' /\
    App.selectedTileForRecommendation (Workflow.app w') = Some d /\
    App.currentPage (Workflow.app w') = App.recommendation.
Proof.
  apply (find_similar_defaults_to_first_highest Scenario.on_result Scenario.four).
  - reflexivity.
  - reflexivity.
  - discriminate.
Defined.

Lemma result_page_shows_top_three_witness :
  ResultPage.topDetections (Some Scenario.four)
  = firstn 3 (ResultFacts.ranked Scenario.four) /\
  ResultPage.results_summary (ResultPage.render (Some Scenario.four)) = Some 3%nat.
Proof.
  assert (H := result_page_shows_top_three Scenario.four ltac:(discriminate)).
  cbv zeta in H.
  destruct H as (_ & _ & _ & Htop & Hsum & _).
  split; [exact Htop|exact Hsum].
Defined.

(** ** Reset *)

(** C9. [handleReset] leaves [App] in exactly its initial state, whatever
    state it is called in, and the preview URL the state holds is revoked.
    A preview URL that was replaced by a later selection is not: after
    [Scenario.replace_then_reset] the URL made for the first file is still
    live. *)
Theorem reset_state_exact_replaced_preview_survives :
  (forall s urls, fst (App.handleReset s urls) = App.initial) /\
  (forall s urls u,
      App.imagePreview s = Some u ->
      ~ In u (Browser.live (snd (App.handleReset s urls)))) /\
  exists w,
    Workflow.run Workflow.initial Scenario.replace_then_reset = Some w /\
    Workflow.app w = App.initial /\
    Browser.live (Workflow.urls w) = [0%nat].
Proof.
  split; [reflexivity|]. split.
  - intros s urls u H. unfold App.handleReset. rewrite H.
    cbn [snd Browser.revokeObjectURL Browser.live].
    apply remove_In.
  - eexists. split; [reflexivity|]. split; reflexivity.
Qed.

(** ** A failed recommendation call *)




(** ** Calls in flight *)

Module WorkflowFacts.
Import Workflow.

(** At most one call is in flight, and the page that made it shows its
    loader. *)
Definition loading_while_in_flight (w : World) : Prop :=
  match in_flight w with
  | [] => True
  | [detect_call _] =>
      App.currentPage (app w) = App.upload /\
      UploadPage.isProcessing (uploadPage w) = true
  | [recommend_call t] =>
      App.currentPage (app w) = App.recommendation /\
      App.selectedTileForRecommendation (app w) = Some t /\
      RecommendationPage.isLoading (recommendationPage w) = true
  | _ => False
  end.

Ltac crunch :=
  repeat match goal with
         | H : Some _ = Some _ |- _ => injection H as <-
         | H : None = Some _ |- _ => discriminate H
         | H : (_, _) = (_, _) |- _ => injection H; intros; subst; clear H
         | H : context [match ?x with _ => _ end] |- _ => destruct x eqn:?
         | H : context [if ?x then _ else _] |- _ => destruct x eqn:?
         end.

Lemma step_keeps_loading (w w' : World) (e : Event) :
  loading_while_in_flight w -> step w e = Some w' -> loading_while_in_flight w'.
Proof.
  intros Hinv Hstep. unfold step in Hstep.
  destruct (App.currentPage (app w)) eqn:Hpage; destruct e; try discriminate.
  all: unfold upload_view, recommendation_view, UploadPage.render, RecommendationPage.render, image_upload, with_uploadPage in Hstep.
  all: crunch; try discriminate.
  all: unfold loading_while_in_flight in *.
  all: cbn [in_flight app urls uploadPage recommendationPage issued reload] in *.
  all: unfold call_list in *.
  all: destruct (in_flight w) as [|[?|?] [|? ?]]; cbn in *; crunch;
    try discriminate; try tauto; try (intuition congruence).
Qed.

Lemma reachable_loading (w : World) :
  reachable w -> loading_while_in_flight w.
Proof.
  induction 1 as [|w w' e _ IH Hstep].
  - exact I.
  - exact (step_keeps_loading w w' e IH Hstep).
Qed.


End WorkflowFacts.



Lemma run_reachable (es : list Workflow.Event) (w w' : Workflow.World) :
  Workflow.reachable w -> Workflow.run w es = Some w' -> Workflow.reachable w'.
Proof.
  revert w. induction es as [|e es IH]; intros w Hw Hrun; simpl in Hrun.
  - now injection Hrun as <-.
  - destruct (Workflow.step w e) as [w1|] eqn:E; [|discriminate].
    apply (IH w1); [|assumption].
    now apply (Workflow.reachable_step w w1 e).
Defined.


(* ================================================================== *)
(** * Further properties of the services *)

Module MoreServiceFacts.
Import Js Random SortFacts NumberFacts RandomFacts ServiceFacts.

(** The tile a recommendation was made from. *)
Definition tile_of_recommendation (x : Recommendation) : Tile :=
  {| tile_id := rec_id x; tile_image := rec_image x |}.

(** The identifier and the image of a detection. *)
Definition detection_entry (d : Detection) : option Z * string :=
  (id d, image d).

Definition catalog_entry (t : Tile) : option Z * string :=
  (Some (tile_id t), tile_image t).

Lemma mapM_map {A B C : Type} (f : A -> Rand B) (g : B -> C) (h : A -> C) :
  (forall x s, g (fst (f x s)) = h x) ->
  forall l s, map g (fst (mapM f l s)) = map h l.
Proof.
  intros Hf. induction l as [|x l IH]; intro s; simpl; [reflexivity|].
  unfold bind. specialize (Hf x s). destruct (f x s) as [y s1].
  specialize (IH s1). destruct (mapM f l s1) as [ys s2].
  simpl in *. now rewrite Hf, IH.
Qed.

Lemma slice0_is_firstn {A : Type} (z : Z) (l : list A) :
  exists n, slice0 z l = firstn n l.
Proof. unfold slice0. destruct (z <? 0)%Z; eauto. Qed.


Lemma detectTile_outcome (imageFile : File) (s : Source) :
  fst (DetectService.detectTile imageFile s) =
  Resolved (fst (DetectService.getRandomDelay s))
           (fst (DetectService.generateMockDetections (snd (Math_random s)))).
Proof.
  unfold DetectService.detectTile, DetectService.getRandomDelay, bind, ret,
    Math_random.
  cbn [fst snd].
  now destruct (DetectService.generateMockDetections _).
Qed.

Lemma getTileRecommendations_outcome
    (shuffle : list Tile -> Rand (list Tile))
    (referenceTile : option Detection) (s : Source) :
  RecommendService.truthy (RecommendService.optional_id referenceTile) = true ->
  fst (RecommendService.getTileRecommendations shuffle referenceTile s) =
  Resolved (fst (RecommendService.getRandomDelay s))
    (fst (RecommendService.generateMockRecommendations shuffle referenceTile
            (snd (Math_random s)))).
Proof.
  intro H. unfold RecommendService.getTileRecommendations.
  rewrite H. destruct referenceTile as [t|]; [|discriminate].
  cbn [negb orb].
  unfold RecommendService.getRandomDelay, bind, ret, Math_random.
  cbn [fst snd].
  now destruct (RecommendService.generateMockRecommendations _ _ _).
Qed.

(** The first draw decides: below the probability of an empty result the
    detection service finds nothing; otherwise it finds the whole catalog,
    since the number drawn for the length is never below the three tiles
    there are. *)
Lemma generateMockDetections_cases (s : Source) :
  in_unit s ->
  let r := fst (DetectService.generateMockDetections s) in
  (s 0%nat < DetectService.EMPTY_DETECTION_PROBABILITY /\ detections r = []) \/
  (DetectService.EMPTY_DETECTION_PROBABILITY <= s 0%nat /\
   Permutation (map detection_entry (detections r))
               (map catalog_entry DetectService.MOCK_TILES)).
Proof.
  intros Hs. unfold DetectService.generateMockDetections, bind, Math_random, ret.
  destruct (Qle_bool DetectService.EMPTY_DETECTION_PROBABILITY (s 0%nat)) eqn:E;
    cbn [negb]; cbv zeta.
  - right. split; [now apply Qle_bool_iff|].
    destruct (Hs 1%nat) as [H0 H1].
    assert (H := Qfloor_scaled_unit (s 1%nat) 3 ltac:(lia) H0 H1).
    change (inject_Z 3) with 3 in H.
    rewrite slice0_all by (cbn [List.length DetectService.MOCK_TILES]; lia).
    match goal with
    | |- context [mapM ?f ?l ?s] =>
        assert (Hm := mapM_map f detection_entry catalog_entry);
        specialize (fun Hf => Hm Hf l s);
        destruct (mapM f l s) as [ds s']
    end.
    cbn [fst snd detections] in *.
    rewrite <- Hm.
    + apply Permutation_map, sort_perm.
    + intros x s0. unfold bind, ret.
      now destruct (DetectService.generateConfidence s0).
  - left. split; [|reflexivity].
    destruct (Qlt_le_dec (s 0%nat) DetectService.EMPTY_DETECTION_PROBABILITY)
      as [?|Hle]; [assumption|].
    apply Qle_bool_iff in Hle. congruence.
Qed.

Section Engine.
Variable shuffle : list Tile -> Rand (list Tile).
Hypothesis shuffle_permutes : permutes shuffle.

Lemma generateMockRecommendations_cases
    (referenceTile : option Detection) (s : Source) :
  in_unit s ->
  let r := fst (RecommendService.generateMockRecommendations shuffle referenceTile s) in
  (s 0%nat < RecommendService.EMPTY_RECOMMENDATION_PROBABILITY /\
   recommendations r = []) \/
  (RecommendService.EMPTY_RECOMMENDATION_PROBABILITY <= s 0%nat /\
   (5 <= List.length (recommendations r))%nat).
Proof.
  intro Hs.
  unfold RecommendService.generateMockRecommendations, bind, Math_random, ret.
  destruct (Qle_bool RecommendService.EMPTY_RECOMMENDATION_PROBABILITY (s 0%nat))
    eqn:E; cbn [negb]; cbv zeta.
  - right. split; [now apply Qle_bool_iff|].
    destruct (Hs 1%nat) as [H0 H1].
    assert (Hn := Qfloor_scaled_unit (s 1%nat) 4 ltac:(lia) H0 H1).
    change (inject_Z 4) with 4 in Hn.
    assert (Hav := availableTiles_length referenceTile).
    match goal with
    | |- context [shuffle ?l ?s] =>
        assert (Hlen := Permutation_length (shuffle_permutes l s));
        destruct (shuffle l s) as [shuffled s1]
    end.
    match goal with
    | |- context [mapM ?f ?l ?s] =>
        assert (Hm := mapM_length f l s); destruct (mapM f l s) as [recs s2]
    end.
    cbn [fst snd recommendations] in *.
    rewrite sort_length, Hm, slice0_length by lia. lia.
  - left. split; [|reflexivity].
    destruct (Qlt_le_dec (s 0%nat) RecommendService.EMPTY_RECOMMENDATION_PROBABILITY)
      as [?|Hle]; [assumption|].
    apply Qle_bool_iff in Hle. congruence.
Qed.

(** The tiles the recommendations are made from are tiles of
    [availableTiles], each at most once. *)
Lemma generateMockRecommendations_tiles
    (referenceTile : option Detection) (s : Source) :
  exists n,
    Permutation
      (map tile_of_recommendation
           (recommendations
              (fst (RecommendService.generateMockRecommendations
                      shuffle referenceTile s))))
      (firstn n (fst (shuffle (RecommendService.availableTiles referenceTile)
                              (fun k => s (S (S k)))))).
Proof.
  unfold RecommendService.generateMockRecommendations, bind, Math_random, ret.
  destruct (negb _); cbv zeta.
  - exists 0%nat. constructor.
  - cbn [snd].
    destruct (shuffle _ _) as [shuffled s1]. cbn [fst snd].
    match goal with
    | |- context [slice0 ?z shuffled] =>
        destruct (slice0_is_firstn z shuffled) as [n ->]
    end.
    exists n.
    match goal with
    | |- context [mapM ?f ?l ?s] =>
        assert (Hm := mapM_map f tile_of_recommendation (fun t => t));
        specialize (fun Hf => Hm Hf l s);
        destruct (mapM f l s) as [recs s2]
    end.
    cbn [fst snd recommendations] in *.
    rewrite map_id in Hm. rewrite <- Hm.
    + apply Permutation_map, sort_perm.
    + intros [i im] s0. unfold bind, ret.
      now destruct (RecommendService.generateSimilarity s0).
Qed.

End Engine.

Lemma catalog_ids_distinct :
  NoDup (map tile_id RecommendService.MOCK_RECOMMENDATION_TILES).
Proof.
  unfold RecommendService.MOCK_RECOMMENDATION_TILES. cbn [map tile_id].
  repeat (constructor; [cbn [In]; intuition discriminate|]).
  constructor.
Qed.

(** Keys that are distinct along a list stay distinct along what a filter
    keeps of it, and along its first elements. *)
Lemma filter_keeps_distinct {K T : Type} (key : T -> K) (keep : T -> bool) :
  forall tiles, NoDup (map key tiles) -> NoDup (map key (filter keep tiles)).
Proof.
  induction tiles as [|t tiles IH]; cbn [map filter]; intro Hd.
  - constructor.
  - apply NoDup_cons_iff in Hd. destruct Hd as [Hfresh Hrest].
    destruct (keep t); cbn [map]; [|now apply IH].
    apply NoDup_cons_iff. split; [|now apply IH].
    intro Hin. apply Hfresh.
    apply in_map_iff in Hin. destruct Hin as (t' & <- & Ht').
    apply in_map. apply filter_In in Ht'. tauto.
Qed.

Lemma firstn_subset {T : Type} (n : nat) (tiles : list T) (t : T) :
  In t (firstn n tiles) -> In t tiles.
Proof.
  intro Hin. rewrite <- (firstn_skipn n tiles).
  apply in_or_app. now left.
Qed.

Lemma firstn_keeps_distinct {K T : Type} (key : T -> K) (n : nat) :
  forall tiles, NoDup (map key tiles) -> NoDup (map key (firstn n tiles)).
Proof.
  induction n as [|n IH]; intros tiles Hd; [constructor|].
  destruct tiles as [|t tiles]; [constructor|].
  cbn [map firstn] in *.
  apply NoDup_cons_iff in Hd. destruct Hd as [Hfresh Hrest].
  apply NoDup_cons_iff. split; [|now apply IH].
  intro Hin. apply Hfresh.
  apply in_map_iff in Hin. destruct Hin as (t' & <- & Ht').
  apply in_map. eapply firstn_subset; eauto.
Qed.

End MoreServiceFacts.



(** X2. The recommendations the service resolves with are made from
    tiles of its catalog, no tile twice, and none of them carries the
    identifier of the reference tile. *)
Theorem recommendations_distinct_catalog_tiles_without_reference
    (shuffle : list Tile -> Random.Rand (list Tile))
    (referenceTile : option Detection) (s : Random.Source) :
  ServiceFacts.permutes shuffle ->
  on_resolution (fst (RecommendService.getTileRecommendations shuffle referenceTile s))
    (fun r =>
       NoDup (map rec_id (recommendations r)) /\
       Forall (fun x =>
                 In (MoreServiceFacts.tile_of_recommendation x)
                    RecommendService.MOCK_RECOMMENDATION_TILES /\
                 RecommendService.optional_id referenceTile <> Some (rec_id x))
              (recommendations r)).
Proof.
  intro Hperm.
  destruct (RecommendService.truthy (RecommendService.optional_id referenceTile))
    eqn:E.
  2:{ rewrite ServiceFacts.getTileRecommendations_rejects by assumption. exact I. }
  rewrite MoreServiceFacts.getTileRecommendations_outcome by assumption.
  cbn [on_resolution].
  destruct (MoreServiceFacts.generateMockRecommendations_tiles
              shuffle referenceTile (snd (Random.Math_random s))) as [n Hn].
  set (recs := recommendations _) in *.
  set (shuffled := fst (shuffle _ _)) in *.
  assert (Hsh : Permutation shuffled (RecommendService.availableTiles referenceTile))
    by apply Hperm.
  split.
  - assert (Hids : map rec_id recs
                   = map tile_id (map MoreServiceFacts.tile_of_recommendation recs))
      by (rewrite map_map; reflexivity).
    rewrite Hids.
    eapply Permutation_NoDup.
    + apply Permutation_sym, Permutation_map. exact Hn.
    + apply MoreServiceFacts.firstn_keeps_distinct.
      eapply Permutation_NoDup.
      * apply Permutation_sym, Permutation_map. exact Hsh.
      * apply MoreServiceFacts.filter_keeps_distinct,
          MoreServiceFacts.catalog_ids_distinct.
  - apply Forall_forall. intros x Hx.
    assert (Hin : In (MoreServiceFacts.tile_of_recommendation x)
                     (RecommendService.availableTiles referenceTile)).
    { eapply Permutation_in; [exact Hsh|].
      eapply MoreServiceFacts.firstn_subset.
      eapply Permutation_in; [exact Hn|].
      now apply in_map. }
    unfold RecommendService.availableTiles in Hin.
    apply filter_In in Hin. destruct Hin as [Hcat Hneq].
    split; [exact Hcat|].
    cbn [MoreServiceFacts.tile_of_recommendation tile_id] in Hneq.
    intro Heq. rewrite Heq in Hneq. cbn [RecommendService.strict_neq] in Hneq.
    rewrite Z.eqb_refl in Hneq. discriminate Hneq.
Qed.

Lemma recommendations_distinct_catalog_tiles_without_reference_witness :
  on_resolution
    (fst (RecommendService.getTileRecommendations RecommendService.sort_random
            (Some {| id := Some 103%Z; image := "/mock/tile3.svg";
                     confidence := 0.8 |})
            Sample.halves))
    (fun r => Forall (fun x => rec_id x <> 103%Z) (recommendations r)).
Proof.
  assert (H := recommendations_distinct_catalog_tiles_without_reference
                 RecommendService.sort_random
                 (Some {| id := Some 103%Z; image := "/mock/tile3.svg";
                          confidence := 0.8 |})
                 Sample.halves ServiceFacts.sort_random_permutes).
  destruct (fst (RecommendService.getTileRecommendations _ _ _)) as [delay r|m];
    [|exact I].
  cbn [on_resolution] in *. destruct H as [_ H].
  eapply Forall_impl; [|exact H].
  cbn beta. intros x [_ Hx] Heq. apply Hx. now rewrite Heq.
Defined.

(** X3. The draw after the one for the delay decides what the detection
    service finds: nothing when it is below 0.25; otherwise every tile of
    its catalog exactly once, with the identifier and the image the
    catalog gives it. *)
Theorem detections_empty_or_whole_catalog (imageFile : File) (s : Random.Source) :
  Random.in_unit s ->
  on_resolution (fst (DetectService.detectTile imageFile s))
    (fun r =>
       (s 1%nat < 0.25 /\ detections r = []) \/
       (0.25 <= s 1%nat /\
        Permutation (map MoreServiceFacts.detection_entry (detections r))
                    [(Some 1%Z, "/mock/tile1.svg"%string);
                     (Some 2%Z, "/mock/tile2.svg"%string);
                     (Some 3%Z, "/mock/tile3.svg"%string)])).
Proof.
  intro Hs. rewrite MoreServiceFacts.detectTile_outcome. cbn [on_resolution].
  apply (MoreServiceFacts.generateMockDetections_cases (snd (Random.Math_random s))).
  now apply RandomFacts.in_unit_tail.
Qed.

Lemma detections_empty_or_whole_catalog_witness :
  on_resolution (fst (DetectService.detectTile Sample.photo Sample.halves))
    (fun r =>
       Permutation (map MoreServiceFacts.detection_entry (detections r))
                   [(Some 1%Z, "/mock/tile1.svg"%string);
                    (Some 2%Z, "/mock/tile2.svg"%string);
                    (Some 3%Z, "/mock/tile3.svg"%string)]).
Proof.
  assert (H := detections_empty_or_whole_catalog Sample.photo Sample.halves
                 Sample.halves_in_unit).
  destruct (fst (DetectService.detectTile _ _)) as [delay r|m]; [|exact I].
  cbn [on_resolution] in *.
  destruct H as [[Hlt _]|[_ H]]; [discriminate Hlt|exact H].
Defined.

(** X4. For a reference tile the recommendation service accepts, the
    result set is empty exactly when the draw after the one for the delay
    is below 0.1. *)
Theorem recommendations_empty_exactly_below_threshold
    (shuffle : list Tile -> Random.Rand (list Tile))
    (referenceTile : option Detection) (s : Random.Source) :
  ServiceFacts.permutes shuffle ->
  Random.in_unit s ->
  on_resolution (fst (RecommendService.getTileRecommendations shuffle referenceTile s))
    (fun r => recommendations r = [] <-> s 1%nat < 0.1).
Proof.
  intros Hperm Hs.
  destruct (RecommendService.truthy (RecommendService.optional_id referenceTile))
    eqn:E.
  2:{ rewrite ServiceFacts.getTileRecommendations_rejects by assumption. exact I. }
  rewrite MoreServiceFacts.getTileRecommendations_outcome by assumption.
  cbn [on_resolution].
  destruct (MoreServiceFacts.generateMockRecommendations_cases shuffle Hperm
              referenceTile (snd (Random.Math_random s))
              (RandomFacts.in_unit_tail s Hs))
    as [[Hlt Hnil]|[Hge Hlen]].
  - split; [intros _; exact Hlt|intros _; exact Hnil].
  - change (snd (Random.Math_random s) 0%nat) with (s 1%nat) in Hge.
    unfold RecommendService.EMPTY_RECOMMENDATION_PROBABILITY in Hge.
    split.
    + intro H. rewrite H in Hlen. cbn [List.length] in Hlen. lia.
    + intro H. lra.
Qed.

Lemma recommendations_empty_exactly_below_threshold_witness :
  on_resolution
    (fst (RecommendService.getTileRecommendations RecommendService.sort_random
            (Some Sample.tile1) Sample.halves))
    (fun r => recommendations r <> []).
Proof.
  assert (H := recommendations_empty_exactly_below_threshold
                 RecommendService.sort_random (Some Sample.tile1) Sample.halves
                 ServiceFacts.sort_random_permutes Sample.halves_in_unit).
  destruct (fst (RecommendService.getTileRecommendations _ _ _)) as [delay r|m];
    [|exact I].
  cbn [on_resolution] in *. intro Hnil. apply H in Hnil. discriminate Hnil.
Defined.

(* ================================================================== *)
(** * Further properties of the workflow *)

Module MoreWorkflowFacts.
Import Browser Workflow WorkflowFacts.


(** What the state of [App] holds on each page, and what the page that
    made the call in flight holds. *)
Definition payload_by_page (w : World) : Prop :=
  match App.currentPage (app w) with
  | App.upload =>
      App.detectionResults (app w) = None /\
      App.selectedTileForRecommendation (app w) = None
  | App.result =>
      (exists r, App.detectionResults (app w) = Some r) /\
      App.selectedTileForRecommendation (app w) = None /\
      App.uploadedImage (app w) <> None
  | App.recommendation =>
      (exists r d,
          App.detectionResults (app w) = Some r /\
          App.selectedTileForRecommendation (app w) = Some d /\
          SortFacts.first_highest confidence d (detections r)) /\
      App.uploadedImage (app w) <> None
  end /\
  (forall f, In (detect_call f) (in_flight w) ->
             App.uploadedImage (app w) = Some f /\
             UploadPage.showCamera (uploadPage w) = false) /\
  (forall t, In (recommend_call t) (in_flight w) ->
             RecommendationPage.error (recommendationPage w) = None) /\
  incl (in_flight w) (issued w).







Lemma handleFindSimilar_first_highest
    (detectionResults : option DetectionResults) (d : Detection) :
  ResultPage.handleFindSimilar detectionResults = Some d ->
  exists r, detectionResults = Some r /\
            SortFacts.first_highest confidence d (detections r).
Proof.
  unfold ResultPage.handleFindSimilar, ResultPage.topDetections.
  destruct detectionResults as [r|]; [|discriminate].
  destruct (ResultPage.hasDetections (Some r)); [|discriminate].
  rewrite (SortFacts.slice0_firstn 3).
  destruct (Js.sort _ (detections r)) as [|x rest] eqn:E; [discriminate|].
  cbn [firstn]. intro H. injection H as ->.
  exists r. split; [reflexivity|].
  eapply SortFacts.sort_head_first_highest. exact E.
Qed.

Ltac payload_goal :=
  repeat match goal with
         | |- _ /\ _ => split
         | |- forall _, _ => intro
         | H : In _ [] |- _ => contradiction H
         | H : False |- _ => contradiction H
         | H : In _ [_] |- _ => destruct H as [H|[]]; try discriminate H
         | H : detect_call _ = detect_call _ |- _ => injection H as <-
         | H : recommend_call _ = recommend_call _ |- _ => injection H as <-
         | H : _ /\ _ |- _ => destruct H
         | H : Some _ = Some _ |- _ => injection H as <-
         | H : exists _, _ |- _ => destruct H
         end;
  try solve [ assumption | reflexivity | discriminate | congruence
            | eauto | apply incl_nil_l
            | apply incl_appr, incl_refl ].

Lemma step_keeps_payload (w w' : World) (e : Event) :
  loading_while_in_flight w -> payload_by_page w ->
  step w e = Some w' -> payload_by_page w'.
Proof.
  intros Hload (Hpage & Hdet & Hrec & Hincl) Hstep.
  destruct (in_flight w) as [|c l] eqn:Hfl.
  - clear Hload Hdet Hrec Hincl. unfold step in Hstep. rewrite Hfl in Hstep.
    destruct (App.currentPage (app w)) eqn:Ep; destruct e; try discriminate.
    all: unfold upload_view, recommendation_view, UploadPage.render,
           RecommendationPage.render, image_upload, with_uploadPage,
           UploadPage.handleDetect, RecommendationPage.effect,
           App.handleImageUpload, App.handleReset, createObjectURL in Hstep.
    all: cbn [settle App.handleFindSimilar App.selectedTileForRecommendation
           RecommendationPage.initial RecommendationPage.hasFetchedRef] in Hstep.
    all: crunch; try discriminate.
    all: try match goal with
           | H : ResultPage.handleFindSimilar _ = Some _ |- _ =>
               apply handleFindSimilar_first_highest in H;
               destruct H as (? & ? & ?)
           end.
    all: unfold payload_by_page.
    all: cbn [in_flight app urls uploadPage recommendationPage issued reload
           App.currentPage App.detectionResults App.selectedTileForRecommendation
           App.uploadedImage App.handleDetectionComplete App.handleFindSimilar
           App.handleBackToResults App.initial call_list app_nil_l
           UploadPage.showCamera UploadPage.openCamera
           UploadPage.handleCameraCapture UploadPage.handleCameraClose
           RecommendationPage.error] in *.
    all: try rewrite Ep; try rewrite Hfl.
    all: payload_goal.
  - unfold loading_while_in_flight in Hload. rewrite Hfl in Hload.
    destruct c as [f|t]; destruct l as [|c' l']; try contradiction.
    + destruct Hload as [Ep Hproc].
      destruct (Hdet f (or_introl eq_refl)) as [Hup Hcam].
      unfold step in Hstep. rewrite Ep, Hfl in Hstep.
      unfold upload_view, UploadPage.render in Hstep. rewrite Hproc in Hstep.
      rewrite Ep in Hpage.
      destruct e; try discriminate; cbn [settle is_detect] in Hstep.
      destruct o; injection Hstep as <-; unfold payload_by_page;
        cbn [in_flight app issued App.currentPage App.detectionResults
             App.selectedTileForRecommendation App.uploadedImage
             App.handleDetectionComplete];
        try rewrite Ep; payload_goal.
    + destruct Hload as (Ep & Hsel & Hloading).
      unfold step in Hstep. rewrite Ep, Hfl in Hstep.
      unfold recommendation_view, RecommendationPage.render in Hstep.
      rewrite Hsel, Hloading in Hstep.
      rewrite Ep in Hpage.
      destruct e; try discriminate; cbn [settle is_detect is_recommend] in Hstep.
      injection Hstep as <-. unfold payload_by_page.
      cbn [in_flight app issued]. rewrite Ep. payload_goal.
Qed.

Lemma reachable_payload (w : World) : reachable w -> payload_by_page w.
Proof.
  induction 1 as [|w w' e Hw IH Hstep].
  - unfold payload_by_page. cbn. payload_goal; contradiction.
  - eapply step_keeps_payload; eauto using reachable_loading.
Qed.

Lemma hasDetections_nonempty (detectionResults : option DetectionResults) :
  ResultPage.hasDetections detectionResults = true ->
  exists r, detectionResults = Some r /\ detections r <> [].
Proof.
  unfold ResultPage.hasDetections.
  destruct detectionResults as [r|]; [|discriminate].
  intro H. exists r. split; [reflexivity|].
  destruct (detections r); [discriminate H|discriminate].
Qed.

Lemma button_gives_tile (detectionResults : option DetectionResults) :
  ResultPage.find_similar_button (ResultPage.render detectionResults) = true ->
  exists d, ResultPage.handleFindSimilar detectionResults = Some d.
Proof.
  unfold ResultPage.render.
  destruct (ResultPage.hasDetections detectionResults) eqn:E; [|discriminate].
  intros _. destruct (hasDetections_nonempty _ E) as (r & -> & Hne).
  destruct (ResultFacts.ranked_nonempty r Hne) as (d & rest & Hr).
  exists d. unfold ResultPage.handleFindSimilar.
  rewrite ResultFacts.topDetections_ranked, Hr by assumption. reflexivity.
Qed.

(** The state of the recommendation page once its effect has run. *)
Definition fetching : RecommendationPage.State :=
  {| RecommendationPage.isLoading := true;
     RecommendationPage.recommendations := None;
     RecommendationPage.error := None;
     RecommendationPage.hasFetchedRef := true |}.

(** "Find Similar Tiles" on the result page. *)
Lemma step_find_similar (w w1 : World) :
  loading_while_in_flight w ->
  App.currentPage (app w) = App.result ->
  step w click_find_similar = Some w1 ->
  exists d,
    ResultPage.handleFindSimilar (App.detectionResults (app w)) = Some d /\
    w1 = {| app := App.handleFindSimilar (Some d) (app w);
            urls := urls w;
            uploadPage := uploadPage w;
            recommendationPage := fetching;
            in_flight := [recommend_call d];
            issued := issued w ++ [recommend_call d] |}.
Proof.
  intros Hload Hpage Hstep.
  assert (Hfl : in_flight w = []).
  { unfold loading_while_in_flight in Hload.
    destruct (in_flight w) as [|[f|t] [|c l]]; try contradiction;
      [reflexivity| |]; destruct Hload as [H _]; congruence. }
  unfold step in Hstep. rewrite Hpage in Hstep.
  destruct (ResultPage.find_similar_button _) eqn:Hb; [|discriminate].
  destruct (button_gives_tile _ Hb) as [d Hd].
  rewrite Hd in Hstep. exists d. split; [exact Hd|].
  cbn [App.handleFindSimilar App.selectedTileForRecommendation
       RecommendationPage.effect RecommendationPage.initial
       RecommendationPage.hasFetchedRef] in Hstep.
  injection Hstep as <-. rewrite Hfl. reflexivity.
Qed.

Lemma back_after_find_similar (t : option Detection) (s : App.State) :
  App.currentPage s = App.result ->
  App.selectedTileForRecommendation s = None ->
  App.handleBackToResults (App.handleFindSimilar t s) = s.
Proof.
  destruct s as [p f u r sel]. cbn. now intros -> ->.
Qed.

End MoreWorkflowFacts.

Module MoreScenarios.
Import Workflow.

(** The result page after a detection that found nothing. *)
Definition nothing_found : World :=
  {| app := {| App.currentPage := App.result;
               App.uploadedImage := Some Sample.photo;
               App.imagePreview := Some 0%nat;
               App.detectionResults := Some {| detections := [] |};
               App.selectedTileForRecommendation := None |};
     urls := {| Browser.live := [0%nat]; Browser.next := 1%nat |};
     uploadPage := UploadPage.initial;
     recommendationPage := RecommendationPage.initial;
     in_flight := [];
     issued := [detect_call Sample.photo] |}.

End MoreScenarios.

Lemma detecting_reachable : Workflow.reachable Scenario.detecting.
Proof.
  apply (run_reachable
           [Workflow.select_file (Some Sample.photo); Workflow.click_detect]
           Workflow.initial Scenario.detecting Workflow.reachable_initial).
  reflexivity.
Defined.

Lemma on_result_reachable : Workflow.reachable Scenario.on_result.
Proof.
  apply (run_reachable Scenario.to_result Workflow.initial Scenario.on_result
           Workflow.reachable_initial).
  reflexivity.
Defined.

Lemma finding_reachable : Workflow.reachable Scenario.finding.
Proof.
  apply (run_reachable (Scenario.to_result ++ [Workflow.click_find_similar])
           Workflow.initial Scenario.finding Workflow.reachable_initial).
  reflexivity.
Defined.

(** X5. In every state the application can reach, the page decides what
    the state of [App] holds: on the upload page no detection results and
    no reference tile; on the result page an image and detection results
    but no reference tile; on the recommendation page an image, detection
    results, and as reference tile the first detection of highest
    confidence among those results. *)
Theorem payload_follows_page (w : Workflow.World) :
  Workflow.reachable w ->
  match App.currentPage (Workflow.app w) with
  | App.upload =>
      App.detectionResults (Workflow.app w) = None /\
      App.selectedTileForRecommendation (Workflow.app w) = None
  | App.result =>
      (exists r, App.detectionResults (Workflow.app w) = Some r) /\
      App.selectedTileForRecommendation (Workflow.app w) = None /\
      App.uploadedImage (Workflow.app w) <> None
  | App.recommendation =>
      (exists r d,
          App.detectionResults (Workflow.app w) = Some r /\
          App.selectedTileForRecommendation (Workflow.app w) = Some d /\
          SortFacts.first_highest confidence d (detections r)) /\
      App.uploadedImage (Workflow.app w) <> None
  end.
Proof.
  intro H. apply (MoreWorkflowFacts.reachable_payload w H).
Qed.

Lemma payload_follows_page_witness :
  exists r d,
    App.detectionResults (Workflow.app Scenario.finding) = Some r /\
    App.selectedTileForRecommendation (Workflow.app Scenario.finding) = Some d /\
    SortFacts.first_highest confidence d (detections r).
Proof.
  exact (proj1 (payload_follows_page Scenario.finding finding_reachable)).
Defined.



(** X7. In every state the application can reach at most one service
    call is in flight.  A detect call in flight is for the image the state
    holds and the upload page shows its loader; a recommend call in flight
    is for the reference tile the state holds and the recommendation page
    shows its loader.  The call is in the log of calls made. *)
Theorem call_in_flight_matches_state (w : Workflow.World) :
  Workflow.reachable w ->
  match Workflow.in_flight w with
  | [] => True
  | [Workflow.detect_call f] =>
      App.currentPage (Workflow.app w) = App.upload /\
      App.uploadedImage (Workflow.app w) = Some f /\
      Workflow.upload_view w = UploadPage.processing /\
      In (Workflow.detect_call f) (Workflow.issued w)
  | [Workflow.recommend_call t] =>
      App.currentPage (Workflow.app w) = App.recommendation /\
      App.selectedTileForRecommendation (Workflow.app w) = Some t /\
      Workflow.recommendation_view w = RecommendationPage.loading /\
      In (Workflow.recommend_call t) (Workflow.issued w)
  | _ => False
  end.
Proof.
  intro H.
  assert (Hload := WorkflowFacts.reachable_loading w H).
  destruct (MoreWorkflowFacts.reachable_payload w H) as (_ & Hdet & _ & Hincl).
  unfold WorkflowFacts.loading_while_in_flight in Hload.
  destruct (Workflow.in_flight w) as [|[f|t] [|c l]]; try exact Hload.
  - destruct Hload as [Hp Hproc].
    destruct (Hdet f (or_introl eq_refl)) as [Hup _].
    repeat split; try assumption.
    + unfold Workflow.upload_view, UploadPage.render. now rewrite Hproc.
    + apply Hincl. now left.
  - destruct Hload as (Hp & Hsel & Hl).
    repeat split; try assumption.
    + unfold Workflow.recommendation_view, RecommendationPage.render.
      now rewrite Hsel, Hl.
    + apply Hincl. now left.
Qed.

Lemma call_in_flight_matches_state_witness :
  Workflow.upload_view Scenario.detecting = UploadPage.processing.
Proof.
  apply (call_in_flight_matches_state Scenario.detecting detecting_reachable).
Defined.

(** X8. When a detect call is rejected, the state of [App] stays as it is
    and the upload page shows its form again, with the error and the
    "Detect Tile" button enabled; pressing it makes exactly one new call
    to the detection service, for the same image. *)
Theorem failed_detection_can_be_retried
    (w w1 : Workflow.World) (f : File) (message : string) :
  Workflow.reachable w ->
  Workflow.in_flight w = [Workflow.detect_call f] ->
  Workflow.step w (Workflow.detect_settles (Rejected message)) = Some w1 ->
  Workflow.app w1 = Workflow.app w /\
  Workflow.upload_view w1 =
    UploadPage.form
      (Some "An error occurred while processing the image. Please try again."%string)
      false /\
  exists w2,
    Workflow.step w1 Workflow.click_detect = Some w2 /\
    Workflow.in_flight w2 = [Workflow.detect_call f] /\
    Workflow.issued w2 = Workflow.issued w1 ++ [Workflow.detect_call f] /\
    Workflow.upload_view w2 = UploadPage.processing.
Proof.
  intros Hreach Hfl Hstep.
  assert (Hload := WorkflowFacts.reachable_loading w Hreach).
  destruct (MoreWorkflowFacts.reachable_payload w Hreach) as (_ & Hdet & _).
  unfold WorkflowFacts.loading_while_in_flight in Hload.
  rewrite Hfl in Hload, Hdet. destruct Hload as [Hpage Hproc].
  destruct (Hdet f (or_introl eq_refl)) as [Hup Hcam].
  unfold Workflow.step in Hstep. rewrite Hpage, Hfl in Hstep.
  cbn [Workflow.settle Workflow.is_detect] in Hstep.
  injection Hstep as <-.
  match goal with |- context [Workflow.upload_view ?x = UploadPage.form _ _] =>
    set (w1 := x) end.
  assert (Hview : Workflow.upload_view w1 =
                  UploadPage.form
                    (Some "An error occurred while processing the image. Please try again."%string)
                    false).
  { unfold Workflow.upload_view, UploadPage.render, w1.
    cbn [Workflow.app Workflow.uploadPage UploadPage.detect_rejected
         UploadPage.isProcessing UploadPage.showCamera UploadPage.error].
    now rewrite Hcam, Hup. }
  split; [reflexivity|]. split; [exact Hview|].
  unfold Workflow.step. rewrite Hview.
  replace (App.currentPage (Workflow.app w1)) with App.upload
    by (symmetry; exact Hpage).
  replace (App.uploadedImage (Workflow.app w1)) with (Some f)
    by (symmetry; exact Hup).
  cbn [UploadPage.handleDetect].
  eexists. split; [reflexivity|].
  unfold Workflow.upload_view, UploadPage.render.
  cbn [Workflow.in_flight Workflow.issued Workflow.uploadPage Workflow.app
       Workflow.call_list app UploadPage.isProcessing w1].
  repeat split.
Qed.

Lemma failed_detection_can_be_retried_witness :
  exists w1 w2,
    Workflow.step Scenario.detecting
      (Workflow.detect_settles (Rejected "Failed to fetch")) = Some w1 /\
    Workflow.step w1 Workflow.click_detect = Some w2 /\
    Workflow.issued w2 =
    [Workflow.detect_call Sample.photo; Workflow.detect_call Sample.photo].
Proof.
  eexists.
  destruct (failed_detection_can_be_retried Scenario.detecting _ Sample.photo
              "Failed to fetch" detecting_reachable eq_refl eq_refl)
    as (_ & _ & w2 & Hstep & _ & Hissued & _).
  exists w2. split; [reflexivity|]. split; [exact Hstep|exact Hissued].
Defined.

(** X9. From the result page, asking for similar tiles, letting the call
    settle either way and going back leaves the state of [App] and the
    object URLs as they were, with one recommendation call made.  Asking
    again makes a second call, for the same tile: the latch against
    duplicate calls holds for one visit of the recommendation page. *)
Theorem back_restores_result_page
    (w w1 w2 w3 : Workflow.World) (o : Outcome RecommendationResults) :
  Workflow.reachable w ->
  App.currentPage (Workflow.app w) = App.result ->
  Workflow.step w Workflow.click_find_similar = Some w1 ->
  Workflow.step w1 (Workflow.recommend_settles o) = Some w2 ->
  Workflow.step w2 Workflow.click_back = Some w3 ->
  Workflow.app w3 = Workflow.app w /\
  Workflow.urls w3 = Workflow.urls w /\
  Workflow.in_flight w3 = [] /\
  exists t,
    Workflow.issued w3 = Workflow.issued w ++ [Workflow.recommend_call t] /\
    exists w4,
      Workflow.step w3 Workflow.click_find_similar = Some w4 /\
      Workflow.in_flight w4 = [Workflow.recommend_call t] /\
      Workflow.issued w4 =
      Workflow.issued w ++ [Workflow.recommend_call t; Workflow.recommend_call t].
Proof.
  intros Hreach Hpage H1 H2 H3.
  assert (Hload := WorkflowFacts.reachable_loading w Hreach).
  destruct (MoreWorkflowFacts.reachable_payload w Hreach) as (Hpay & _).
  rewrite Hpage in Hpay. destruct Hpay as (_ & Hsel & _).
  destruct (MoreWorkflowFacts.step_find_similar w w1 Hload Hpage H1)
    as (d & Hd & ->).
  unfold Workflow.step in H2.
  cbn [Workflow.app App.handleFindSimilar App.currentPage Workflow.in_flight
       Workflow.settle Workflow.is_recommend] in H2.
  injection H2 as <-.
  unfold Workflow.step, Workflow.recommendation_view, RecommendationPage.render
    in H3.
  cbn [Workflow.app App.handleFindSimilar App.currentPage
       App.selectedTileForRecommendation Workflow.recommendationPage] in H3.
  assert (Hnl : RecommendationPage.isLoading
                  match o with
                  | Resolved _ results =>
                      RecommendationPage.fetch_resolved results
                        MoreWorkflowFacts.fetching
                  | Rejected _ =>
                      RecommendationPage.fetch_rejected MoreWorkflowFacts.fetching
                  end = false) by now destruct o.
  rewrite Hnl in H3. cbn [RecommendationPage.back_button] in H3.
  injection H3 as <-.
  cbn [Workflow.app Workflow.urls Workflow.in_flight Workflow.issued].
  assert (Happ : App.handleBackToResults
                   (App.handleFindSimilar (Some d) (Workflow.app w))
                 = Workflow.app w)
    by now apply MoreWorkflowFacts.back_after_find_similar.
  rewrite Happ.
  repeat split. exists d. split; [reflexivity|].
  unfold Workflow.step. cbn [Workflow.app]. rewrite Hpage.
  destruct (ResultPage.find_similar_button _) eqn:Hb.
  - rewrite Hd.
    cbn [App.handleFindSimilar App.selectedTileForRecommendation
         RecommendationPage.effect RecommendationPage.initial
         RecommendationPage.hasFetchedRef].
    eexists. split; [reflexivity|].
    cbn [Workflow.in_flight Workflow.issued Workflow.call_list].
    split; [reflexivity|]. now rewrite <- app_assoc.
  - exfalso. unfold Workflow.step in H1. rewrite Hpage, Hb in H1. discriminate H1.
Qed.

Lemma back_restores_result_page_witness :
  exists w2 w3,
    Workflow.step Scenario.finding
      (Workflow.recommend_settles (Resolved 1600 {| recommendations := [] |}))
    = Some w2 /\
    Workflow.step w2 Workflow.click_back = Some w3 /\
    Workflow.app w3 = Workflow.app Scenario.on_result.
Proof.
  eexists. eexists. split; [reflexivity|]. split; [reflexivity|].
  apply (back_restores_result_page Scenario.on_result Scenario.finding _ _
           (Resolved 1600 {| recommendations := [] |}) on_result_reachable
           eq_refl eq_refl eq_refl eq_refl).
Defined.

(** X10. When the recommend call in flight resolves, the state of [App]
    stays as it is and the recommendation page shows the reference tile
    with the recommendations as the service ordered them and their number,
    or, for an empty result, the "No Similar Tiles Found" notice: never
    the error with its retry button.  Back and reset are offered. *)
Theorem resolved_recommendations_are_listed
    (w w1 : Workflow.World) (t : Detection)
    (delay : Z) (results : RecommendationResults) :
  Workflow.reachable w ->
  Workflow.in_flight w = [Workflow.recommend_call t] ->
  Workflow.step w (Workflow.recommend_settles (Resolved delay results)) = Some w1 ->
  Workflow.app w1 = Workflow.app w /\
  Workflow.recommendation_view w1 =
    RecommendationPage.similar_tiles t
      (match recommendations results with
       | [] => RecommendationPage.no_recommendations
       | r :: l => RecommendationPage.found (S (List.length l)) (r :: l)
       end) /\
  RecommendationPage.retry_button (Workflow.recommendation_view w1) = false /\
  RecommendationPage.back_button (Workflow.recommendation_view w1) = true /\
  RecommendationPage.reset_button (Workflow.recommendation_view w1) = true.
Proof.
  intros Hreach Hfl Hstep.
  assert (Hload := WorkflowFacts.reachable_loading w Hreach).
  destruct (MoreWorkflowFacts.reachable_payload w Hreach) as (_ & _ & Hrec & _).
  unfold WorkflowFacts.loading_while_in_flight in Hload.
  rewrite Hfl in Hload, Hrec. destruct Hload as (Hpage & Hsel & Hl).
  specialize (Hrec t (or_introl eq_refl)).
  unfold Workflow.step in Hstep. rewrite Hpage, Hfl in Hstep.
  cbn [Workflow.settle Workflow.is_recommend Workflow.is_detect] in Hstep.
  injection Hstep as <-.
  split; [reflexivity|].
  unfold Workflow.recommendation_view, RecommendationPage.render.
  cbn [Workflow.app Workflow.recommendationPage
       RecommendationPage.fetch_resolved RecommendationPage.isLoading
       RecommendationPage.error RecommendationPage.recommendations].
  rewrite Hsel, Hrec. unfold RecommendationPage.listing.
  destruct (recommendations results); repeat split.
Qed.

Lemma resolved_recommendations_are_listed_witness :
  exists w1,
    Workflow.step Scenario.finding
      (Workflow.recommend_settles (Resolved 1600 {| recommendations := [] |}))
    = Some w1 /\
    Workflow.recommendation_view w1 =
    RecommendationPage.similar_tiles Scenario.d91
      RecommendationPage.no_recommendations.
Proof.
  eexists. split; [reflexivity|].
  apply (resolved_recommendations_are_listed Scenario.finding _ Scenario.d91
           1600 {| recommendations := [] |} finding_reachable eq_refl eq_refl).
Defined.

(** X11. On the result page of a detection that found nothing, the page
    shows its "No Tile Detected" guidance and the one thing that can happen
    is the reset, which leads to the upload form with no image, no error
    and the "Detect Tile" button disabled. *)
Theorem no_detection_leaves_only_reset
    (w w' : Workflow.World) (e : Workflow.Event) :
  Workflow.reachable w ->
  App.currentPage (Workflow.app w) = App.result ->
  App.detectionResults (Workflow.app w) = Some {| detections := [] |} ->
  Workflow.step w e = Some w' ->
  ResultPage.no_detections
    (ResultPage.render (App.detectionResults (Workflow.app w))) = true /\
  e = Workflow.click_reset /\
  Workflow.app w' = App.initial /\
  Workflow.upload_view w' = UploadPage.form None true.
Proof.
  intros Hreach Hpage Hres Hstep.
  assert (Hload := WorkflowFacts.reachable_loading w Hreach).
  assert (Hfl : Workflow.in_flight w = []).
  { unfold WorkflowFacts.loading_while_in_flight in Hload.
    destruct (Workflow.in_flight w) as [|[f|t] [|c l]]; try contradiction;
      [reflexivity| |]; destruct Hload as [H _]; congruence. }
  rewrite Hres. split; [reflexivity|].
  unfold Workflow.step in Hstep. rewrite Hpage, Hfl, Hres in Hstep.
  destruct e; try discriminate Hstep.
  unfold App.handleReset in Hstep. injection Hstep as <-.
  repeat split.
Qed.

Lemma no_detection_leaves_only_reset_witness :
  exists w',
    Workflow.step MoreScenarios.nothing_found Workflow.click_reset = Some w' /\
    Workflow.upload_view w' = UploadPage.form None true.
Proof.
  eexists. split; [reflexivity|].
  eapply (no_detection_leaves_only_reset MoreScenarios.nothing_found _
            Workflow.click_reset).
  - apply (run_reachable
             [Workflow.select_file (Some Sample.photo); Workflow.click_detect;
              Workflow.detect_settles (Resolved 1600 {| detections := [] |})]
             Workflow.initial MoreScenarios.nothing_found
             Workflow.reachable_initial).
    reflexivity.
  - reflexivity.
  - reflexivity.
  - reflexivity.
Defined.

(** X12. The effect of the recommendation page asks for recommendations
    once: run on the page as it is mounted it calls the service with the
    reference tile, and run again, on whatever state, it changes nothing
    and calls nothing. *)
Theorem recommendation_effect_runs_once
    (t : Detection) (st : RecommendationPage.State) :
  snd (RecommendationPage.effect (Some t) RecommendationPage.initial) = Some t /\
  RecommendationPage.effect (Some t)
    (fst (RecommendationPage.effect (Some t) st))
  = (fst (RecommendationPage.effect (Some t) st), None).
Proof.
  split; [reflexivity|].
  unfold RecommendationPage.effect.
  destruct (RecommendationPage.hasFetchedRef st) eqn:E; cbn [fst].
  - now rewrite E.
  - reflexivity.
Qed.

(* ================================================================== *)
(** * The cards *)

(** ** components/TileCard.jsx *)

Module TileCard.

(** [getConfidenceClass]: the class of the confidence badge. *)
Definition getConfidenceClass (confidence : Q) : string :=
  if Qle_bool 0.8 confidence then "high"
  else if Qle_bool 0.5 confidence then "medium"
  else "low".

End TileCard.

(** ** components/RecommendationCard.jsx *)

Module RecommendationCard.

(** [getSimilarityClass]: the class of the similarity badge. *)
Definition getSimilarityClass (similarity : Q) : string :=
  if Qle_bool 0.9 similarity then "high"
  else if Qle_bool 0.8 similarity then "medium"
  else "low".

End RecommendationCard.

Module CardFacts.
Import SortFacts.

(** The badge of the second card is not better than that of the first:
    it is "high" only if the first is, and it is "low" whenever the first
    is. *)
Definition not_better (first second : string) : Prop :=
  (second = "high"%string -> first = "high"%string) /\
  (first = "low"%string -> second = "low"%string).

Lemma Qle_bool_false (x y : Q) : Qle_bool x y = false -> y < x.
Proof.
  intro H. destruct (Qlt_le_dec y x) as [?|Hle]; [assumption|].
  apply Qle_bool_iff in Hle. congruence.
Qed.

Lemma getConfidenceClass_monotone (a b : Q) :
  b <= a ->
  not_better (TileCard.getConfidenceClass a) (TileCard.getConfidenceClass b).
Proof.
  intro H. unfold not_better, TileCard.getConfidenceClass.
  destruct (Qle_bool 0.8 a) eqn:A8; destruct (Qle_bool 0.8 b) eqn:B8;
    destruct (Qle_bool 0.5 a) eqn:A5; destruct (Qle_bool 0.5 b) eqn:B5;
    split; intro E; try reflexivity; try discriminate E; exfalso;
    repeat match goal with
           | H : Qle_bool _ _ = true |- _ => apply Qle_bool_iff in H
           | H : Qle_bool _ _ = false |- _ => apply Qle_bool_false in H
           end; lra.
Qed.

Lemma getSimilarityClass_monotone (a b : Q) :
  b <= a ->
  not_better (RecommendationCard.getSimilarityClass a)
             (RecommendationCard.getSimilarityClass b).
Proof.
  intro H. unfold not_better, RecommendationCard.getSimilarityClass.
  destruct (Qle_bool 0.9 a) eqn:A8; destruct (Qle_bool 0.9 b) eqn:B8;
    destruct (Qle_bool 0.8 a) eqn:A5; destruct (Qle_bool 0.8 b) eqn:B5;
    split; intro E; try reflexivity; try discriminate E; exfalso;
    repeat match goal with
           | H : Qle_bool _ _ = true |- _ => apply Qle_bool_iff in H
           | H : Qle_bool _ _ = false |- _ => apply Qle_bool_false in H
           end; lra.
Qed.

Lemma StronglySorted_impl {A : Type} (R R' : A -> A -> Prop) (l : list A) :
  (forall a b, R a b -> R' a b) -> StronglySorted R l -> StronglySorted R' l.
Proof.
  intros HR. induction 1 as [|x l Hl IH Hx]; constructor; auto.
  eapply Forall_impl; [|exact Hx]. auto.
Qed.

Lemma cards_from_In (i : nat) (l : list Detection) (c : ResultPage.TileCard) :
  In c (ResultPage.cards_from i l) ->
  exists d, In d l /\ ResultPage.card_confidence c = confidence d.
Proof.
  revert i. induction l as [|d l IH]; intros i H; simpl in H; [contradiction|].
  destruct H as [<-|H].
  - exists d. split; [now left|reflexivity].
  - destruct (IH _ H) as (d' & Hd & E). exists d'. split; [now right|exact E].
Qed.

Lemma cards_from_sorted (i : nat) (l : list Detection) :
  descending confidence l ->
  StronglySorted
    (fun a b => ResultPage.card_confidence b <= ResultPage.card_confidence a)
    (ResultPage.cards_from i l).
Proof.
  unfold descending. intro H. revert i.
  induction H as [|d l Hl IH Hd]; intro i; simpl; constructor; auto.
  apply Forall_forall. intros c Hc.
  destruct (cards_from_In _ _ _ Hc) as (d' & Hin & ->).
  cbn [ResultPage.card_confidence].
  rewrite Forall_forall in Hd. now apply Hd.
Qed.

Lemma firstn_descending {A : Type} (key : A -> Q) (n : nat) (l : list A) :
  descending key l -> descending key (firstn n l).
Proof.
  unfold descending. intro H. revert n.
  induction H as [|x l Hl IH Hx]; intro n; destruct n; simpl; constructor; auto.
  rewrite Forall_forall in *. intros y Hy. apply Hx.
  rewrite <- (firstn_skipn n l). apply in_or_app. now left.
Qed.

End CardFacts.

(** X13. Every detection the mock detection service resolves with gets
    the badge "high" or "medium" on its card, never "low". *)
Theorem mock_detections_never_low (imageFile : File) (s : Random.Source) :
  Random.in_unit s ->
  on_resolution (fst (DetectService.detectTile imageFile s))
    (fun r =>
       Forall (fun d =>
                 TileCard.getConfidenceClass (confidence d) = "high"%string \/
                 TileCard.getConfidenceClass (confidence d) = "medium"%string)
              (detections r)).
Proof.
  intro Hs.
  destruct (ServiceFacts.detectTile_resolves imageFile s) as [delay ->].
  cbn [on_resolution].
  eapply Forall_impl;
    [|apply ServiceFacts.generateMockDetections_range;
      now apply RandomFacts.in_unit_tail].
  cbn beta. intros d [Hlo _]. unfold TileCard.getConfidenceClass.
  destruct (Qle_bool 0.8 (confidence d)); [now left|right].
  apply Qle_bool_iff in Hlo. now rewrite Hlo.
Qed.

Lemma mock_detections_never_low_witness :
  on_resolution (fst (DetectService.detectTile Sample.photo Sample.halves))
    (fun r =>
       Forall (fun d =>
                 TileCard.getConfidenceClass (confidence d) = "high"%string \/
                 TileCard.getConfidenceClass (confidence d) = "medium"%string)
              (detections r)).
Proof.
  exact (mock_detections_never_low Sample.photo Sample.halves
           Sample.halves_in_unit).
Defined.

(** X14. Badges do not get better down a list: on the result page, for
    any detection results, and in the list of recommendations the service
    resolves with, a card is "high" only if every card above it is and
    every card below a "low" card is "low". *)
Theorem badges_do_not_improve_down_the_list
    (shuffle : list Tile -> Random.Rand (list Tile))
    (detectionResults : option DetectionResults)
    (referenceTile : option Detection) (s : Random.Source) :
  StronglySorted
    (fun a b =>
       CardFacts.not_better
         (TileCard.getConfidenceClass (ResultPage.card_confidence a))
         (TileCard.getConfidenceClass (ResultPage.card_confidence b)))
    (ResultPage.tile_cards (ResultPage.render detectionResults)) /\
  on_resolution (fst (RecommendService.getTileRecommendations shuffle referenceTile s))
    (fun r =>
       StronglySorted
         (fun a b =>
            CardFacts.not_better
              (RecommendationCard.getSimilarityClass (similarity a))
              (RecommendationCard.getSimilarityClass (similarity b)))
         (recommendations r)).
Proof.
  split.
  - unfold ResultPage.render.
    destruct (ResultPage.hasDetections detectionResults) eqn:E;
      cbn [ResultPage.tile_cards]; [|constructor].
    destruct (MoreWorkflowFacts.hasDetections_nonempty _ E) as (r & -> & Hne).
    rewrite ResultFacts.topDetections_ranked by assumption.
    eapply CardFacts.StronglySorted_impl;
      [|apply CardFacts.cards_from_sorted, CardFacts.firstn_descending,
          SortFacts.sort_descending].
    cbn beta. intros a b. apply CardFacts.getConfidenceClass_monotone.
  - destruct (RecommendService.truthy (RecommendService.optional_id referenceTile))
      eqn:E.
    + destruct (ServiceFacts.getTileRecommendations_resolves shuffle _ s E)
        as [delay ->].
      cbn [on_resolution].
      eapply CardFacts.StronglySorted_impl;
        [|apply ServiceFacts.generateMockRecommendations_sorted].
      cbn beta. intros a b. apply CardFacts.getSimilarityClass_monotone.
    + rewrite ServiceFacts.getTileRecommendations_rejects by assumption.
      exact I.
Qed.

Example badges_of_four :
  map (fun c => TileCard.getConfidenceClass (ResultPage.card_confidence c))
      (ResultPage.tile_cards (ResultPage.render (Some Scenario.four)))
  = ["high"; "high"; "medium"]%string.
Proof. reflexivity. Qed.

(* ================================================================== *)
(** * The uploader's inputs *)

(** ** components/ImageUploader.jsx, the handlers of the drop zone *)

Module DropZone.

(** The two [useState] cells of [ImageUploader]. *)
Record State := { isDragOver : bool; error : option string }.

Definition initial : State := {| isDragOver := false; error := None |}.

(** [handleFile] on the component: its [error] after the call, and the
    file [onImageSelect] is called with, if it is called. *)
Definition handleFile (file : option File) (st : State) : State * option File :=
  let (validationError, selected) := ImageUploader.handleFile file in
  ({| isDragOver := isDragOver st; error := validationError |}, selected).

(** [handleFileChange]: [files] is [e.target.files]. *)
Definition handleFileChange (files : list File) (st : State)
  : State * option File :=
  match files with
  | file :: _ => handleFile (Some file) st
  | [] => (st, None)
  end.

Definition handleDragOver (st : State) : State :=
  {| isDragOver := true; error := error st |}.

Definition handleDragLeave (st : State) : State :=
  {| isDragOver := false; error := error st |}.

(** [handleDrop]: [files] is [e.dataTransfer.files]. *)
Definition handleDrop (files : list File) (st : State) : State * option File :=
  let st' := {| isDragOver := false; error := error st |} in
  match files with
  | file :: _ => handleFile (Some file) st'
  | [] => (st', None)
  end.

End DropZone.

(** X15. The file picker and the drop zone apply one policy.  Given the
    same files they leave the same error and select the same file: the
    first file when [validateFile] accepts it, with the error cleared;
    nothing when it does not, with its reason as the error; and nothing,
    with the error as it was, when there is no file.  A drop also ends
    the drag highlight. *)
Theorem picker_and_drop_agree (files : list File) (st : DropZone.State) :
  snd (DropZone.handleDrop files st) = snd (DropZone.handleFileChange files st) /\
  DropZone.error (fst (DropZone.handleDrop files st))
  = DropZone.error (fst (DropZone.handleFileChange files st)) /\
  DropZone.isDragOver (fst (DropZone.handleDrop files st)) = false /\
  match files with
  | [] =>
      snd (DropZone.handleFileChange files st) = None /\
      DropZone.error (fst (DropZone.handleFileChange files st)) = DropZone.error st
  | file :: _ =>
      match ImageUploader.validateFile (Some file) with
      | None =>
          snd (DropZone.handleFileChange files st) = Some file /\
          DropZone.error (fst (DropZone.handleFileChange files st)) = None
      | Some reason =>
          snd (DropZone.handleFileChange files st) = None /\
          DropZone.error (fst (DropZone.handleFileChange files st)) = Some reason
      end
  end.
Proof.
  destruct files as [|file rest].
  - repeat split.
  - unfold DropZone.handleDrop, DropZone.handleFileChange, DropZone.handleFile,
      ImageUploader.handleFile.
    destruct (ImageUploader.validateFile (Some file)); repeat split.
Qed.



(* ================================================================== *)
(** * The camera *)

(** ** components/CameraCapture.jsx *)

From Stdlib Require DecimalString.

Module CameraCapture.
Import Browser.

(** A track of a media stream, and a stream as the tracks [getTracks]
    returns. *)
Definition Track := nat.
Definition Stream := list Track.

(** What the component acts on outside itself: the object URLs of the
    document, and every call of [track.stop()] made, oldest first. *)
Record Devices := { urls : UrlStore; stops : list Track }.

(** The four [useState] cells of a mounted component, [streamRef.current]
    and the [capturedFile] it keeps on its canvas.  The video and the
    canvas are rendered, and their refs set, as long as there is no
    error. *)
Record State := {
  isLoading : bool;
  error : option string;
  isCaptured : bool;
  capturedImage : option Url;
  streamRef : option Stream;
  capturedFile : option File
}.

Definition initial : State :=
  {| isLoading := true; error := None; isCaptured := false;
     capturedImage := None; streamRef := None; capturedFile := None |}.

(** What the component tells its parent: [onCapture(file)], [onClose()]. *)
Inductive Notice :=
| onCapture (file : File)
| onClose.

Definition unsupported_message : string :=
  "Camera is not supported in this browser. Please use a modern browser or upload a file instead.".
Definition permission_message : string :=
  "Camera permission was denied. Please allow camera access in your browser settings and try again.".
Definition not_found_message : string :=
  "No camera found on this device. Please connect a camera or upload a file instead.".
Definition busy_message : string :=
  "Camera is in use by another application. Please close other apps using the camera and try again.".
Definition other_message : string :=
  "Unable to access camera. Please try again or upload a file instead.".

(** [initCamera] up to its [await]; [supported] tells whether
    [navigator.mediaDevices.getUserMedia] exists.  The result tells
    whether [getUserMedia] is called. *)
Definition initCamera (supported : bool) (st : State) : State * bool :=
  if supported
  then ({| isLoading := true; error := None; isCaptured := isCaptured st;
           capturedImage := capturedImage st; streamRef := streamRef st;
           capturedFile := capturedFile st |}, true)
  else ({| isLoading := false; error := Some unsupported_message;
           isCaptured := isCaptured st; capturedImage := capturedImage st;
           streamRef := streamRef st; capturedFile := capturedFile st |}, false).

(** ... from its [await] on, when [getUserMedia] gave a stream: the stream
    is kept and handed to the video ... *)
Definition getUserMedia_resolved (stream : Stream) (st : State) : State :=
  {| isLoading := isLoading st; error := error st; isCaptured := isCaptured st;
     capturedImage := capturedImage st; streamRef := Some stream;
     capturedFile := capturedFile st |}.

(** ... whose [onloadedmetadata] handler ends the loading ... *)
Definition onloadedmetadata (st : State) : State :=
  {| isLoading := false; error := error st; isCaptured := isCaptured st;
     capturedImage := capturedImage st; streamRef := streamRef st;
     capturedFile := capturedFile st |}.

(** ... and when [getUserMedia] failed with an error of the given name. *)
Definition error_message (name : string) : string :=
  if (String.eqb name "NotAllowedError" || String.eqb name "PermissionDeniedError")%bool
  then permission_message
  else if (String.eqb name "NotFoundError" || String.eqb name "DevicesNotFoundError")%bool
  then not_found_message
  else if (String.eqb name "NotReadableError" || String.eqb name "TrackStartError")%bool
  then busy_message
  else other_message.

Definition getUserMedia_rejected (name : string) (st : State) : State :=
  {| isLoading := false; error := Some (error_message name);
     isCaptured := isCaptured st; capturedImage := capturedImage st;
     streamRef := streamRef st; capturedFile := capturedFile st |}.

Definition stopCamera (st : State) (dev : Devices) : State * Devices :=
  match streamRef st with
  | Some stream =>
      ({| isLoading := isLoading st; error := error st;
          isCaptured := isCaptured st; capturedImage := capturedImage st;
          streamRef := None; capturedFile := capturedFile st |},
       {| urls := urls dev; stops := stops dev ++ stream |})
  | None => (st, dev)
  end.

(** [capturePhoto] up to [canvas.toBlob]: whether the frame is drawn and
    a blob asked for. *)
Definition capturePhoto (st : State) : bool :=
  negb (RecommendationPage.truthy (error st)).

(** The file name [`camera-capture-${timestamp}.jpg`]. *)
Definition file_name (timestamp : Z) : string :=
  ("camera-capture-"
   ++ DecimalString.NilEmpty.string_of_int (Z.to_int timestamp)
   ++ ".jpg")%string.

(** The callback of [canvas.toBlob]: [blob] is the size of the blob, or
    [None] for [null]; [timestamp] is [Date.now()]. *)
Definition toBlob_callback (blob : option Z) (timestamp : Z)
                           (st : State) (dev : Devices) : State * Devices :=
  match blob with
  | Some blob_size =>
      let file := {| name := file_name timestamp;
                     type := "image/jpeg";
                     size := blob_size |} in
      let (previewUrl, urls') := createObjectURL (urls dev) in
      ({| isLoading := isLoading st; error := error st; isCaptured := true;
          capturedImage := Some previewUrl; streamRef := streamRef st;
          capturedFile := Some file |},
       {| urls := urls'; stops := stops dev |})
  | None => (st, dev)
  end.

Definition confirmCapture (st : State) (dev : Devices)
  : State * Devices * option Notice :=
  match capturedFile st with
  | Some file =>
      let (st', dev') := stopCamera st dev in
      (st', dev', Some (onCapture file))
  | None => (st, dev, None)
  end.

Definition revoke_if_set (image : option Url) (dev : Devices) : Devices :=
  match image with
  | Some u => {| urls := revokeObjectURL u (urls dev); stops := stops dev |}
  | None => dev
  end.

Definition retakePhoto (st : State) (dev : Devices) : State * Devices :=
  ({| isLoading := isLoading st; error := error st; isCaptured := false;
      capturedImage := None; streamRef := streamRef st;
      capturedFile := capturedFile st |},
   revoke_if_set (capturedImage st) dev).

Definition handleClose (st : State) (dev : Devices)
  : State * Devices * option Notice :=
  let (st', dev') := stopCamera st dev in
  (st', revoke_if_set (capturedImage st) dev', Some onClose).

(** The cleanup of the mount effect.  Its [capturedImage] is that of the
    render the effect was created in: the effect depends on [initCamera]
    and [stopCamera] only, which never change, so it is created once, in
    the first render. *)
Definition cleanup (capturedImage_of_effect : option Url)
                   (st : State) (dev : Devices) : State * Devices :=
  let (st', dev') := stopCamera st dev in
  (st', revoke_if_set capturedImage_of_effect dev').

Definition unmount (st : State) (dev : Devices) : State * Devices :=
  cleanup (capturedImage initial) st dev.

(** What is rendered, the close button apart, which always is: the
    loading indicator, the error with its "Go Back" button, the live video
    (rendered but hidden once a still is taken), the still, the "Capture
    Photo" button, and the "Retake" and "Use Photo" buttons. *)
Record View := {
  loading_indicator : bool;
  error_box : option string;
  video : bool;
  still : option Url;
  capture_button : bool;
  retake_and_use_buttons : bool
}.

Definition render (st : State) : View :=
  let has_error := RecommendationPage.truthy (error st) in
  {| loading_indicator := isLoading st;
     error_box := if has_error then error st else None;
     video := negb has_error && negb (isCaptured st);
     still := if negb has_error && isCaptured st then capturedImage st else None;
     capture_button :=
       negb (isLoading st) && negb has_error && negb (isCaptured st);
     retake_and_use_buttons :=
       negb (isLoading st) && negb has_error && isCaptured st |}.

End CameraCapture.

Module CameraFacts.
Import Browser CameraCapture.

Lemma stopCamera_releases (st : State) (dev : Devices) :
  streamRef (fst (stopCamera st dev)) = None /\
  capturedImage (fst (stopCamera st dev)) = capturedImage st /\
  urls (snd (stopCamera st dev)) = urls dev /\
  stops (snd (stopCamera st dev))
  = stops dev ++ match streamRef st with Some stream => stream | None => [] end.
Proof.
  unfold stopCamera. destruct (streamRef st) eqn:E; cbn.
  - repeat split.
  - now rewrite app_nil_r.
Qed.

Lemma stopCamera_again (st : State) (dev : Devices) :
  streamRef st = None -> stopCamera st dev = (st, dev).
Proof. intro H. unfold stopCamera. now rewrite H. Qed.

Lemma revoke_if_set_again (image : option Url) (dev : Devices) :
  revoke_if_set image (revoke_if_set image dev) = revoke_if_set image dev.
Proof.
  destruct image as [u|]; [|reflexivity].
  unfold revoke_if_set, revokeObjectURL. cbn [urls stops live next].
  now rewrite remove_remove_eq.
Qed.

(** The camera as the upload page mounts it, once the stream plays. *)
Definition ready (stream : Stream) : State :=
  onloadedmetadata (getUserMedia_resolved stream (fst (initCamera true initial))).

Definition no_devices : Devices := {| urls := no_urls; stops := [] |}.

(** The upload page with the camera open, before any image. *)
Definition camera_open : Workflow.World :=
  Workflow.with_uploadPage (UploadPage.openCamera UploadPage.initial)
                           Workflow.initial.

(** A still of 11 MiB. *)
Definition big_photo : File :=
  {| name := file_name 1700000000000;
     type := "image/jpeg";
     size := 11 * 1024 * 1024 |}.

End CameraFacts.

Example camera_file_name :
  CameraCapture.file_name 1700000000000 = "camera-capture-1700000000000.jpg"%string.
Proof. reflexivity. Qed.

Example permission_denied :
  CameraCapture.error (CameraCapture.getUserMedia_rejected "NotAllowedError"
                         (fst (CameraCapture.initCamera true CameraCapture.initial)))
  = Some CameraCapture.permission_message.
Proof. reflexivity. Qed.

(** X17. Closing the camera stops every track of the stream it holds,
    once, and none when it holds no stream; it revokes the preview of a
    still and tells the parent.  Closing again, or the cleanup at unmount
    after it, stops no track and leaves the object URLs as they are. *)
Theorem camera_close_releases_once
    (st : CameraCapture.State) (dev : CameraCapture.Devices) :
  let '(st1, dev1, notice) := CameraCapture.handleClose st dev in
  notice = Some CameraCapture.onClose /\
  CameraCapture.streamRef st1 = None /\
  CameraCapture.stops dev1
  = CameraCapture.stops dev
    ++ match CameraCapture.streamRef st with
       | Some stream => stream
       | None => []
       end /\
  (forall u, CameraCapture.capturedImage st = Some u ->
             ~ In u (Browser.live (CameraCapture.urls dev1))) /\
  CameraCapture.handleClose st1 dev1 = (st1, dev1, Some CameraCapture.onClose) /\
  CameraCapture.unmount st1 dev1 = (st1, dev1).
Proof.
  unfold CameraCapture.handleClose.
  destruct (CameraFacts.stopCamera_releases st dev) as (Hs & Hc & Hu & Ht).
  destruct (CameraCapture.stopCamera st dev) as [st1 dev1]. cbn [fst snd] in *.
  split; [reflexivity|]. split; [exact Hs|]. split.
  { destruct (CameraCapture.capturedImage st); exact Ht. }
  split.
  { intros u E. rewrite E. cbn [CameraCapture.revoke_if_set CameraCapture.urls
                                Browser.revokeObjectURL Browser.live].
    apply remove_In. }
  split.
  - rewrite CameraFacts.stopCamera_again by assumption.
    rewrite Hc, CameraFacts.revoke_if_set_again. reflexivity.
  - unfold CameraCapture.unmount, CameraCapture.cleanup.
    now rewrite CameraFacts.stopCamera_again.
Qed.

(** X18. The still the camera makes is a file of type image/jpeg, named
    after the time of capture, of the size of the blob: its type is
    always one the uploader allows, and [validateFile] would accept it
    exactly when the blob is at most 10 MiB.  "Use Photo" hands that file
    to the parent. *)
Theorem camera_still_is_a_jpeg_file
    (blob_size timestamp : Z)
    (st : CameraCapture.State) (dev : CameraCapture.Devices) :
  let (st1, dev1) :=
    CameraCapture.toBlob_callback (Some blob_size) timestamp st dev in
  let file := {| name := CameraCapture.file_name timestamp;
                 type := "image/jpeg";
                 size := blob_size |} in
  CameraCapture.capturedFile st1 = Some file /\
  CameraCapture.isCaptured st1 = true /\
  In (type file) ImageUploader.ALLOWED_TYPES /\
  (ImageUploader.validateFile (Some file) = None <->
   (blob_size <= ImageUploader.MAX_FILE_SIZE)%Z) /\
  snd (CameraCapture.confirmCapture st1 dev1) = Some (CameraCapture.onCapture file).
Proof.
  unfold CameraCapture.toBlob_callback, Browser.createObjectURL.
  cbn [CameraCapture.capturedFile CameraCapture.isCaptured].
  split; [reflexivity|]. split; [reflexivity|].
  split; [right; left; reflexivity|]. split.
  - unfold ImageUploader.validateFile. cbn [type size existsb negb].
    change (String.eqb "image/jpeg" "image/png") with false.
    change (String.eqb "image/jpeg" "image/jpeg") with true.
    cbn [orb negb].
    destruct (Z.gtb_spec blob_size ImageUploader.MAX_FILE_SIZE) as [Hgt|Hle];
      split; intro E; try reflexivity; try discriminate E; lia.
  - unfold CameraCapture.confirmCapture. cbn [CameraCapture.capturedFile].
    now destruct (CameraCapture.stopCamera _ _).
Qed.

(** X19. "Retake" undoes a capture: taken from the live preview with an
    object URL store that hands out a new URL, a capture followed by a
    retake shows what was shown before, leaves the same object URLs live,
    stops no track and keeps the stream. *)
Theorem retake_undoes_capture
    (blob_size timestamp : Z)
    (st : CameraCapture.State) (dev : CameraCapture.Devices) :
  CameraCapture.isCaptured st = false ->
  ~ In (Browser.next (CameraCapture.urls dev))
       (Browser.live (CameraCapture.urls dev)) ->
  let (st1, dev1) :=
    CameraCapture.toBlob_callback (Some blob_size) timestamp st dev in
  let (st2, dev2) := CameraCapture.retakePhoto st1 dev1 in
  CameraCapture.render st2 = CameraCapture.render st /\
  CameraCapture.still (CameraCapture.render st1)
  = (if RecommendationPage.truthy (CameraCapture.error st) then None
     else Some (Browser.next (CameraCapture.urls dev))) /\
  Browser.live (CameraCapture.urls dev2) = Browser.live (CameraCapture.urls dev) /\
  CameraCapture.stops dev2 = CameraCapture.stops dev /\
  CameraCapture.streamRef st2 = CameraCapture.streamRef st.
Proof.
  intros Hlive Hfresh.
  unfold CameraCapture.toBlob_callback, Browser.createObjectURL,
    CameraCapture.retakePhoto, CameraCapture.render.
  cbn [CameraCapture.capturedImage CameraCapture.revoke_if_set
       CameraCapture.urls CameraCapture.stops Browser.revokeObjectURL
       Browser.live Browser.next CameraCapture.isLoading CameraCapture.error
       CameraCapture.isCaptured CameraCapture.streamRef
       CameraCapture.still].
  rewrite Hlive, remove_cons, notin_remove by assumption.
  destruct (RecommendationPage.truthy (CameraCapture.error st));
    repeat split; now rewrite ?andb_false_r, ?andb_true_r.
Qed.

Lemma retake_undoes_capture_witness :
  let (st1, dev1) :=
    CameraCapture.toBlob_callback (Some 4096%Z) 1700000000000
      (CameraFacts.ready [7%nat]) CameraFacts.no_devices in
  let (st2, dev2) := CameraCapture.retakePhoto st1 dev1 in
  CameraCapture.render st2 = CameraCapture.render (CameraFacts.ready [7%nat]) /\
  Browser.live (CameraCapture.urls dev2) = [].
Proof.
  assert (H := retake_undoes_capture 4096 1700000000000
                 (CameraFacts.ready [7%nat]) CameraFacts.no_devices
                 eq_refl (fun F : False => F)).
  destruct (CameraCapture.toBlob_callback _ _ _ _) as [st1 dev1].
  destruct (CameraCapture.retakePhoto st1 dev1) as [st2 dev2].
  destruct H as (Hr & _ & Hl & _). split; [exact Hr|exact Hl].
Defined.

(** X20. When the camera cannot be had, because the browser has no
    [getUserMedia] (which is then not called) or because it fails under
    whatever name, the component ends loading and shows one of its five
    messages; it offers neither capture nor use, [capturePhoto] does
    nothing, and closing from there stops no track and revokes nothing. *)
Theorem camera_failure_leaves_only_close
    (name : option string) (dev : CameraCapture.Devices) :
  let st :=
    match name with
    | Some n =>
        CameraCapture.getUserMedia_rejected n
          (fst (CameraCapture.initCamera true CameraCapture.initial))
    | None => fst (CameraCapture.initCamera false CameraCapture.initial)
    end in
  (exists m,
      CameraCapture.error_box (CameraCapture.render st) = Some m /\
      In m [CameraCapture.unsupported_message; CameraCapture.permission_message;
            CameraCapture.not_found_message; CameraCapture.busy_message;
            CameraCapture.other_message]) /\
  CameraCapture.loading_indicator (CameraCapture.render st) = false /\
  CameraCapture.capture_button (CameraCapture.render st) = false /\
  CameraCapture.retake_and_use_buttons (CameraCapture.render st) = false /\
  CameraCapture.capturePhoto st = false /\
  snd (CameraCapture.initCamera false CameraCapture.initial) = false /\
  CameraCapture.handleClose st dev = (st, dev, Some CameraCapture.onClose).
Proof.
  destruct name as [n|]; cbv zeta.
  - unfold CameraCapture.getUserMedia_rejected, CameraCapture.error_message.
    destruct (_ || _)%bool; [|destruct (_ || _)%bool; [|destruct (_ || _)%bool]];
      (split; [eexists; split; [reflexivity|cbn; tauto]|]);
      repeat split; discriminate.
  - split; [eexists; split; [reflexivity|cbn; tauto]|]. repeat split.
Qed.

(** X21. "Use Photo" on a still taken while a stream plays hands the file
    of the still to the parent and stops every track of the stream; the
    cleanup at the unmount that follows stops none again.  The preview of
    the still is not revoked on this path: it is still a live object URL
    after the unmount. *)
Theorem use_photo_releases_stream_keeps_preview
    (stream : CameraCapture.Stream) (blob_size timestamp : Z)
    (st : CameraCapture.State) (dev : CameraCapture.Devices) :
  CameraCapture.streamRef st = Some stream ->
  let (st1, dev1) :=
    CameraCapture.toBlob_callback (Some blob_size) timestamp st dev in
  let '(st2, dev2, notice) := CameraCapture.confirmCapture st1 dev1 in
  let (st3, dev3) := CameraCapture.unmount st2 dev2 in
  notice = Some (CameraCapture.onCapture
                   {| name := CameraCapture.file_name timestamp;
                      type := "image/jpeg";
                      size := blob_size |}) /\
  CameraCapture.streamRef st3 = None /\
  CameraCapture.stops dev3 = CameraCapture.stops dev ++ stream /\
  CameraCapture.capturedImage st1 = Some (Browser.next (CameraCapture.urls dev)) /\
  In (Browser.next (CameraCapture.urls dev))
     (Browser.live (CameraCapture.urls dev3)).
Proof.
  intro Hstream.
  unfold CameraCapture.toBlob_callback, Browser.createObjectURL,
    CameraCapture.confirmCapture, CameraCapture.unmount, CameraCapture.cleanup,
    CameraCapture.stopCamera.
  cbn [CameraCapture.capturedFile CameraCapture.streamRef CameraCapture.urls].
  rewrite Hstream. cbn. repeat split. now left.
Qed.

Lemma use_photo_releases_stream_keeps_preview_witness :
  let (st1, dev1) :=
    CameraCapture.toBlob_callback (Some 4096%Z) 1700000000000
      (CameraFacts.ready [7%nat]) CameraFacts.no_devices in
  let '(st2, dev2, notice) := CameraCapture.confirmCapture st1 dev1 in
  let (st3, dev3) := CameraCapture.unmount st2 dev2 in
  CameraCapture.stops dev3 = [7%nat] /\
  Browser.live (CameraCapture.urls dev3) = [0%nat].
Proof.
  assert (H := use_photo_releases_stream_keeps_preview [7%nat] 4096 1700000000000
                 (CameraFacts.ready [7%nat]) CameraFacts.no_devices eq_refl).
  destruct (CameraCapture.toBlob_callback _ _ _ _) as [st1 dev1] eqn:E1.
  destruct (CameraCapture.confirmCapture st1 dev1) as [[st2 dev2] notice] eqn:E2.
  destruct (CameraCapture.unmount st2 dev2) as [st3 dev3] eqn:E3.
  destruct H as (_ & _ & Hstops & _).
  split; [exact Hstops|].
  injection E1 as <- <-. injection E2 as <- <- _. injection E3 as _ <-.
  reflexivity.
Defined.

(** X22. A photo confirmed in the camera becomes the image of [App] as it
    is: the camera closes, the file is stored whatever [validateFile]
    would say of it, with a new preview URL, and the upload form shows
    with the "Detect Tile" button enabled. *)
Theorem camera_photo_is_stored_unvalidated (w : Workflow.World) (file : File) :
  App.currentPage (Workflow.app w) = App.upload ->
  Workflow.upload_view w = UploadPage.camera ->
  exists w',
    Workflow.step w (Workflow.camera_capture file) = Some w' /\
    App.uploadedImage (Workflow.app w') = Some file /\
    App.imagePreview (Workflow.app w') = Some (Browser.next (Workflow.urls w)) /\
    Workflow.upload_view w' =
      UploadPage.form (UploadPage.error (Workflow.uploadPage w)) false.
Proof.
  intros Hpage Hview. unfold Workflow.step. rewrite Hpage, Hview.
  eexists. split; [reflexivity|].
  unfold Workflow.upload_view, UploadPage.render in *.
  cbn [Workflow.image_upload App.handleImageUpload Browser.createObjectURL
       Workflow.app Workflow.uploadPage App.uploadedImage App.imagePreview
       UploadPage.handleCameraCapture UploadPage.isProcessing
       UploadPage.showCamera UploadPage.error].
  destruct (UploadPage.isProcessing (Workflow.uploadPage w)); [discriminate|].
  repeat split.
Qed.

Lemma camera_photo_is_stored_unvalidated_witness :
  exists w',
    Workflow.step CameraFacts.camera_open
      (Workflow.camera_capture CameraFacts.big_photo) = Some w' /\
    App.uploadedImage (Workflow.app w') = Some CameraFacts.big_photo /\
    ImageUploader.validateFile (Some CameraFacts.big_photo)
    = Some "File too large. Maximum size is 10MB."%string.
Proof.
  destruct (camera_photo_is_stored_unvalidated CameraFacts.camera_open
              CameraFacts.big_photo eq_refl eq_refl)
    as (w' & Hstep & Hup & _).
  exists w'. split; [exact Hstep|]. split; [exact Hup|reflexivity].
Defined.
